(** * Quantum Leap Academy: module progression and content generation

    A shallow embedding of the handlers of the [App] component
    (src/unnamed/part_001): [generateModuleContent], [createNewModule],
    [addResource], [goToNextAssignmentSection],
    [goToPreviousAssignmentSection], [submitAssignment], [generateTest],
    [handleAnswerChange], [submitTest] and [resetModuleForRetry].

    - The React state variables form a record; a handler is a function
      from the application state to an outcome (returned or thrown) and
      a new state, written in a small monad with [try]/[catch]/[finally].
    - JavaScript numbers are IEEE 754 doubles (primitive floats).
    - The generation service, the document store and the clock are an
      oracle consulted in program order; requests, store operations and
      alerts are logged as effects.
    - [JSON.parse] is a parameter, typed by the use made of its result.

    Every handler may be invoked in every state.  Of the rendering, the
    conditions under which the screens offer a handler are modelled
    ([renderAssignmentPhase], [finalTestLocked], [certificateOffered],
    [retryOffered]), and of the snapshot listener the order of the module
    list ([sortModules]); [selectModule] follows the other handlers.
    The sign-in effects, the inline handlers of the buttons and the
    certificate download are left out. *)

From Stdlib Require Import ZArith Floats String List Sorted Lia.
From stdpp Require Import base option list gmap strings pretty.
Import ListNotations.
Import SpecFloat.

Local Open Scope string_scope.
Local Open Scope list_scope.

(** ** Data model *)

(** [status] of a module: the five string literals the handlers write. *)
Inductive Status :=
  | started | resources_added | assignment_done | completed | needs_revisit.

(** [appPhase] (line 35). *)
Inductive Phase :=
  | moduleSelect | resourcesPhase | assignment | quiz | finalTest | results.

(** The argument of [generateTest] and [submitTest]: 'quiz' or 'finalTest'. *)
Inductive TestType := Quiz | FinalTest.

(** JavaScript numbers are IEEE 754 doubles: the primitive [float].
    [number n] is the Number holding the count or array length [n]. *)
Definition number (n : nat) : float :=
  PrimFloat.of_uint63 (Uint63.of_Z (Z.of_nat n)).

(** [new Date().toISOString()] and [Date.now()]: the instant in milliseconds. *)
Definition Timestamp := nat.

(** A teacher's pick: [{title, url?}]. *)
Record Pick := { pick_title : string; pick_url : option string }.

Record Scenario := { sc_title : string; sc_description : string }.

Record Task := {
  task_id : string;
  task_description : string;
  task_marks : float;
  task_type : string;
  task_language : option string }.

Record SectionT := {
  section_id : string;
  section_title : string;
  section_marks : float;
  sub_scenario : Scenario;
  tasks : list Task }.

Record AResource := {
  ar_title : string; ar_url : string; ar_type : string; ar_category : string }.

(** [assignmentContent]: the object of the assignment schema (lines 253-315). *)
Record Assignment := {
  a_title : string;
  total_marks : float;
  scenario : Scenario;
  sections : list SectionT;
  a_resources : list AResource }.

(** [assignments]: [{}] at creation, later [{completed, responses?}]. *)
Record Assignments := {
  a_completed : option bool;
  a_responses : option (gmap string (gmap string string)) }.

Record QuizRecord := { q_score : float; q_date : Timestamp }.

(** What may stand where a string is expected, as far as [===] against
    a string or [undefined] tells values apart: [undefined] (a missing
    key), a string, or anything else ([null], a number, an object). *)
Inductive Value := Undefined | Str (s : string) | NotAString.

#[global] Instance Value_eq_dec : EqDecision Value.
Proof. solve_decision. Defined.

(** A question of a generated test.  The questions are what [JSON.parse]
    makes of the response text; nothing checks them against the schema
    sent with the request, so [correctAnswer], the one field a handler
    reads, may be missing or not a string. *)
Record Question := {
  question : string;
  options : list (string * string);
  correctAnswer : Value }.

(** The module object held in [currentModule]. *)
Record Module := {
  id : string;
  name : string;
  status : Status;
  resources : list string;
  m_teacherPicks : list Pick;
  m_assignmentContent : option Assignment;
  assignments : Assignments;
  quizzes : list QuizRecord;
  finalTestScore : float;
  certificateIssued : bool;
  createdAt : Timestamp;
  lastUpdated : Timestamp }.

(** One [key: value] entry of an object literal over the module's keys.
    A list of entries is an object literal: the partial documents passed
    to [updateModuleInFirestore] and the overrides of a spread
    [{...currentModule, key: value, ...}]. *)
Inductive Field :=
  | FId (v : string)
  | FName (v : string)
  | FStatus (v : Status)
  | FResources (v : list string)
  | FTeacherPicks (v : list Pick)
  | FAssignmentContent (v : option Assignment)
  | FAssignments (v : Assignments)
  | FQuizzes (v : list QuizRecord)
  | FFinalTestScore (v : float)
  | FCertificateIssued (v : bool)
  | FCreatedAt (v : Timestamp)
  | FLastUpdated (v : Timestamp).

Definition Doc := list Field.

(** [{...m, key: value}] for one entry. *)
Definition set_field (f : Field) (m : Module) : Module :=
  match f with
  | FId v => Build_Module v (name m) (status m) (resources m) (m_teacherPicks m) (m_assignmentContent m) (assignments m) (quizzes m) (finalTestScore m) (certificateIssued m) (createdAt m) (lastUpdated m)
  | FName v => Build_Module (id m) v (status m) (resources m) (m_teacherPicks m) (m_assignmentContent m) (assignments m) (quizzes m) (finalTestScore m) (certificateIssued m) (createdAt m) (lastUpdated m)
  | FStatus v => Build_Module (id m) (name m) v (resources m) (m_teacherPicks m) (m_assignmentContent m) (assignments m) (quizzes m) (finalTestScore m) (certificateIssued m) (createdAt m) (lastUpdated m)
  | FResources v => Build_Module (id m) (name m) (status m) v (m_teacherPicks m) (m_assignmentContent m) (assignments m) (quizzes m) (finalTestScore m) (certificateIssued m) (createdAt m) (lastUpdated m)
  | FTeacherPicks v => Build_Module (id m) (name m) (status m) (resources m) v (m_assignmentContent m) (assignments m) (quizzes m) (finalTestScore m) (certificateIssued m) (createdAt m) (lastUpdated m)
  | FAssignmentContent v => Build_Module (id m) (name m) (status m) (resources m) (m_teacherPicks m) v (assignments m) (quizzes m) (finalTestScore m) (certificateIssued m) (createdAt m) (lastUpdated m)
  | FAssignments v => Build_Module (id m) (name m) (status m) (resources m) (m_teacherPicks m) (m_assignmentContent m) v (quizzes m) (finalTestScore m) (certificateIssued m) (createdAt m) (lastUpdated m)
  | FQuizzes v => Build_Module (id m) (name m) (status m) (resources m) (m_teacherPicks m) (m_assignmentContent m) (assignments m) v (finalTestScore m) (certificateIssued m) (createdAt m) (lastUpdated m)
  | FFinalTestScore v => Build_Module (id m) (name m) (status m) (resources m) (m_teacherPicks m) (m_assignmentContent m) (assignments m) (quizzes m) v (certificateIssued m) (createdAt m) (lastUpdated m)
  | FCertificateIssued v => Build_Module (id m) (name m) (status m) (resources m) (m_teacherPicks m) (m_assignmentContent m) (assignments m) (quizzes m) (finalTestScore m) v (createdAt m) (lastUpdated m)
  | FCreatedAt v => Build_Module (id m) (name m) (status m) (resources m) (m_teacherPicks m) (m_assignmentContent m) (assignments m) (quizzes m) (finalTestScore m) (certificateIssued m) v (lastUpdated m)
  | FLastUpdated v => Build_Module (id m) (name m) (status m) (resources m) (m_teacherPicks m) (m_assignmentContent m) (assignments m) (quizzes m) (finalTestScore m) (certificateIssued m) (createdAt m) v
  end.

(** [{...m, e1, e2, ...}]: later entries win. *)
Definition spread (m : Module) (overrides : Doc) : Module :=
  fold_left (fun acc f => set_field f acc) overrides m.

(** The entries of a module object, as [setDoc(ref, updatedModule)] sends them. *)
Definition fields_of_module (m : Module) : Doc :=
  [ FId (id m); FName (name m); FStatus (status m); FResources (resources m);
    FTeacherPicks (m_teacherPicks m); FAssignmentContent (m_assignmentContent m);
    FAssignments (assignments m); FQuizzes (quizzes m);
    FFinalTestScore (finalTestScore m); FCertificateIssued (certificateIssued m);
    FCreatedAt (createdAt m); FLastUpdated (lastUpdated m) ].

(** Reading one key of a stored document: the last entry written for it. *)
Definition doc_get {A} (proj : Field -> option A) (d : Doc) : option A :=
  fold_left (fun acc f => match proj f with Some v => Some v | None => acc end) d None.

Definition in_id f := match f with FId v => Some v | _ => None end.
Definition in_name f := match f with FName v => Some v | _ => None end.
Definition in_status f := match f with FStatus v => Some v | _ => None end.
Definition in_resources f := match f with FResources v => Some v | _ => None end.
Definition in_teacherPicks f := match f with FTeacherPicks v => Some v | _ => None end.
Definition in_assignmentContent f := match f with FAssignmentContent v => Some v | _ => None end.
Definition in_assignments f := match f with FAssignments v => Some v | _ => None end.
Definition in_quizzes f := match f with FQuizzes v => Some v | _ => None end.
Definition in_finalTestScore f := match f with FFinalTestScore v => Some v | _ => None end.
Definition in_certificateIssued f := match f with FCertificateIssued v => Some v | _ => None end.
Definition in_createdAt f := match f with FCreatedAt v => Some v | _ => None end.
Definition in_lastUpdated f := match f with FLastUpdated v => Some v | _ => None end.

(** [{ id: doc.id, ...doc.data() }] (line 428), defined when the stored
    document carries every key of the module object; an [id] entry of the
    data (written by [resetModuleForRetry]) overrides [doc.id]. *)
Definition module_of_doc (docId : string) (d : Doc) : option Module :=
  match doc_get in_name d, doc_get in_status d, doc_get in_resources d,
        doc_get in_teacherPicks d, doc_get in_assignmentContent d,
        doc_get in_assignments d, doc_get in_quizzes d,
        doc_get in_finalTestScore d, doc_get in_certificateIssued d,
        doc_get in_createdAt d, doc_get in_lastUpdated d with
  | Some n, Some st, Some rs, Some tp, Some ac, Some asg, Some qz, Some fs,
    Some ci, Some ca, Some lu =>
      Some (Build_Module (default docId (doc_get in_id d))
                         n st rs tp ac asg qz fs ci ca lu)
  | _, _, _, _, _, _, _, _, _, _, _ => None
  end.

(** ** React state

    The state variables of [App] (lines 22-43).  [resourceInput] is not
    among them: line 25 destructures the empty string instead of calling
    [useState], see [resourceInput] below. *)

(** [assessmentMetrics]: the object built in [generateTest] (lines 575-589). *)
Record Metrics := {
  practicalityTheoreticity : string;
  predictability : string;
  difficulty : string;
  alignment : string;
  learningTime : string;
  proficiencyRequired : string }.

(** [lastScoreDetails]. *)
Record ScoreDetails := {
  sd_score : float; sd_comment : string; sd_certificateIssued : bool }.

Record Ui := {
  currentModule : option Module;
  topic : string;
  questions : list Question;
  userAnswers : gmap nat string;
  score : float;
  showCertificate : bool;
  userName : string;
  loading : bool;
  errorMessage : string;
  appPhase : Phase;
  assessmentMetrics : option Metrics;
  lastScoreDetails : option ScoreDetails;
  teacherPicks : list Pick;
  assignmentContent : option Assignment;
  currentAssignmentSectionIndex : Z;
  assignmentResponses : gmap string (gmap string string) }.

(** The setters returned by [useState], as functions on the state. *)
Definition setCurrentModule (v : option Module) (u : Ui) : Ui :=
  Build_Ui v (topic u) (questions u) (userAnswers u) (score u) (showCertificate u) (userName u) (loading u) (errorMessage u) (appPhase u) (assessmentMetrics u) (lastScoreDetails u) (teacherPicks u) (assignmentContent u) (currentAssignmentSectionIndex u) (assignmentResponses u).
Definition setTopic (v : string) (u : Ui) : Ui :=
  Build_Ui (currentModule u) v (questions u) (userAnswers u) (score u) (showCertificate u) (userName u) (loading u) (errorMessage u) (appPhase u) (assessmentMetrics u) (lastScoreDetails u) (teacherPicks u) (assignmentContent u) (currentAssignmentSectionIndex u) (assignmentResponses u).
Definition setQuestions (v : list Question) (u : Ui) : Ui :=
  Build_Ui (currentModule u) (topic u) v (userAnswers u) (score u) (showCertificate u) (userName u) (loading u) (errorMessage u) (appPhase u) (assessmentMetrics u) (lastScoreDetails u) (teacherPicks u) (assignmentContent u) (currentAssignmentSectionIndex u) (assignmentResponses u).
Definition setUserAnswers (v : gmap nat string) (u : Ui) : Ui :=
  Build_Ui (currentModule u) (topic u) (questions u) v (score u) (showCertificate u) (userName u) (loading u) (errorMessage u) (appPhase u) (assessmentMetrics u) (lastScoreDetails u) (teacherPicks u) (assignmentContent u) (currentAssignmentSectionIndex u) (assignmentResponses u).
Definition setScore (v : float) (u : Ui) : Ui :=
  Build_Ui (currentModule u) (topic u) (questions u) (userAnswers u) v (showCertificate u) (userName u) (loading u) (errorMessage u) (appPhase u) (assessmentMetrics u) (lastScoreDetails u) (teacherPicks u) (assignmentContent u) (currentAssignmentSectionIndex u) (assignmentResponses u).
Definition setShowCertificate (v : bool) (u : Ui) : Ui :=
  Build_Ui (currentModule u) (topic u) (questions u) (userAnswers u) (score u) v (userName u) (loading u) (errorMessage u) (appPhase u) (assessmentMetrics u) (lastScoreDetails u) (teacherPicks u) (assignmentContent u) (currentAssignmentSectionIndex u) (assignmentResponses u).
Definition setUserName (v : string) (u : Ui) : Ui :=
  Build_Ui (currentModule u) (topic u) (questions u) (userAnswers u) (score u) (showCertificate u) v (loading u) (errorMessage u) (appPhase u) (assessmentMetrics u) (lastScoreDetails u) (teacherPicks u) (assignmentContent u) (currentAssignmentSectionIndex u) (assignmentResponses u).
Definition setLoading (v : bool) (u : Ui) : Ui :=
  Build_Ui (currentModule u) (topic u) (questions u) (userAnswers u) (score u) (showCertificate u) (userName u) v (errorMessage u) (appPhase u) (assessmentMetrics u) (lastScoreDetails u) (teacherPicks u) (assignmentContent u) (currentAssignmentSectionIndex u) (assignmentResponses u).
Definition setErrorMessage (v : string) (u : Ui) : Ui :=
  Build_Ui (currentModule u) (topic u) (questions u) (userAnswers u) (score u) (showCertificate u) (userName u) (loading u) v (appPhase u) (assessmentMetrics u) (lastScoreDetails u) (teacherPicks u) (assignmentContent u) (currentAssignmentSectionIndex u) (assignmentResponses u).
Definition setAppPhase (v : Phase) (u : Ui) : Ui :=
  Build_Ui (currentModule u) (topic u) (questions u) (userAnswers u) (score u) (showCertificate u) (userName u) (loading u) (errorMessage u) v (assessmentMetrics u) (lastScoreDetails u) (teacherPicks u) (assignmentContent u) (currentAssignmentSectionIndex u) (assignmentResponses u).
Definition setAssessmentMetrics (v : option Metrics) (u : Ui) : Ui :=
  Build_Ui (currentModule u) (topic u) (questions u) (userAnswers u) (score u) (showCertificate u) (userName u) (loading u) (errorMessage u) (appPhase u) v (lastScoreDetails u) (teacherPicks u) (assignmentContent u) (currentAssignmentSectionIndex u) (assignmentResponses u).
Definition setLastScoreDetails (v : option ScoreDetails) (u : Ui) : Ui :=
  Build_Ui (currentModule u) (topic u) (questions u) (userAnswers u) (score u) (showCertificate u) (userName u) (loading u) (errorMessage u) (appPhase u) (assessmentMetrics u) v (teacherPicks u) (assignmentContent u) (currentAssignmentSectionIndex u) (assignmentResponses u).
Definition setTeacherPicks (v : list Pick) (u : Ui) : Ui :=
  Build_Ui (currentModule u) (topic u) (questions u) (userAnswers u) (score u) (showCertificate u) (userName u) (loading u) (errorMessage u) (appPhase u) (assessmentMetrics u) (lastScoreDetails u) v (assignmentContent u) (currentAssignmentSectionIndex u) (assignmentResponses u).
Definition setAssignmentContent (v : option Assignment) (u : Ui) : Ui :=
  Build_Ui (currentModule u) (topic u) (questions u) (userAnswers u) (score u) (showCertificate u) (userName u) (loading u) (errorMessage u) (appPhase u) (assessmentMetrics u) (lastScoreDetails u) (teacherPicks u) v (currentAssignmentSectionIndex u) (assignmentResponses u).
Definition setCurrentAssignmentSectionIndex (v : Z) (u : Ui) : Ui :=
  Build_Ui (currentModule u) (topic u) (questions u) (userAnswers u) (score u) (showCertificate u) (userName u) (loading u) (errorMessage u) (appPhase u) (assessmentMetrics u) (lastScoreDetails u) (teacherPicks u) (assignmentContent u) v (assignmentResponses u).
Definition setAssignmentResponses (v : gmap string (gmap string string)) (u : Ui) : Ui :=
  Build_Ui (currentModule u) (topic u) (questions u) (userAnswers u) (score u) (showCertificate u) (userName u) (loading u) (errorMessage u) (appPhase u) (assessmentMetrics u) (lastScoreDetails u) (teacherPicks u) (assignmentContent u) (currentAssignmentSectionIndex u) v.

(** ** The outside world: generation service, document store, clock *)

(** The three [responseSchema] shapes sent to the service. *)
Inductive Schema := ResourceListSchema | AssignmentSchema | QuestionSetSchema.

(** A POST to the generation endpoint: the key in [apiUrl] and the payload
    ([contents[0].parts[0].text] and [generationConfig.responseSchema]). *)
Record Request := { req_key : string; req_prompt : string; req_schema : Schema }.

(** The service's JSON body, as far as the handlers inspect it:
    [candidates[0].content.parts[0].text] and [error.message]. *)
Record Part := { text : string }.
Record Content := { parts : option (list Part) }.
Record Candidate := { content : option Content }.
Record ApiError := { err_message : string }.
Record GenResult := {
  candidates : option (list Candidate);
  error : option ApiError }.

(** [response.json()] either rejects or yields the body. *)
Inductive Body := BodyInvalid (msg : string) | BodyJson (r : GenResult).

Record Response := {
  ok : bool; http_status : nat; statusText : string; body : Body }.

(** [fetch] either rejects or resolves to a response. *)
Inductive FetchOutcome := NetworkError (msg : string) | Responded (r : Response).

(** What the world answers to the n-th external interaction of a run:
    the outcome of a [fetch], whether a store operation fails (with the
    message of the rejection), and the time a [Date] reads. *)
Record World := {
  net : nat -> FetchOutcome;
  store_fault : nat -> option string;
  time : nat -> Timestamp }.

(** Observable effects, in program order.  [console] output is not recorded. *)
Inductive Effect :=
  | EvFetch (r : Request)
  | EvSetDoc (docId : string) (data : Doc) (merge : bool)
  | EvGetDoc (docId : string)
  | EvAlert (msg : string).

(** The application: configuration, React state, and the world it runs in.
    [firestoreReady] is [db && userId]; [store] is the user's module
    collection; [tick] counts the external interactions so far. *)
Record App := {
  geminiApiKey : option string;
  firestoreReady : bool;
  ui : Ui;
  store : gmap string Doc;
  world : World;
  tick : nat;
  effects : list Effect }.

(** ** Handlers as state transformers that may throw *)

(** A thrown JavaScript error; the handlers read only [error.message]. *)
Inductive Exn :=
  | Error (msg : string)
  | TypeError (msg : string)
  | ReferenceError (msg : string)
  | SyntaxError (msg : string)
  | FirebaseError (msg : string).

Definition message (e : Exn) : string :=
  match e with
  | Error m | TypeError m | ReferenceError m | SyntaxError m | FirebaseError m => m
  end.

Inductive Outcome (A : Type) := Ret (a : A) | Throw (e : Exn).
Arguments Ret {A} a.
Arguments Throw {A} e.

(** State changes made before a throw stay in place, as in JavaScript.
    A handler runs to completion before the next event; none of them
    reads a state variable after setting it, so the values threaded here
    are the ones the handler's closure holds. *)
Definition M (A : Type) : Type := App -> Outcome A * App.

Definition ret {A} (a : A) : M A := fun s => (Ret a, s).

Definition bind {A B} (c : M A) (k : A -> M B) : M B := fun s =>
  match c s with
  | (Ret a, s') => k a s'
  | (Throw e, s') => (Throw e, s')
  end.

Definition throw {A} (e : Exn) : M A := fun s => (Throw e, s).

(** [try { c } catch (error) { h error }] *)
Definition try_catch {A} (c : M A) (h : Exn -> M A) : M A := fun s =>
  match c s with
  | (Ret a, s') => (Ret a, s')
  | (Throw e, s') => h e s'
  end.

(** [try { c } finally { f }] *)
Definition finally {A} (c : M A) (f : M unit) : M A := fun s =>
  match c s with
  | (r, s') =>
      match f s' with
      | (Ret _, s'') => (r, s'')
      | (Throw e, s'') => (Throw e, s'')
      end
  end.

Declare Scope js_scope.
Delimit Scope js_scope with js.
Notation "x <- c ;; k" := (bind c (fun x => k))
  (at level 100, c at next level, right associativity) : js_scope.
Notation "c ;; k" := (bind c (fun _ => k))
  (at level 100, right associativity) : js_scope.
Local Open Scope js_scope.

(** Reading and writing the React state. *)
Definition read {A} (proj : Ui -> A) : M A := fun s => (Ret (proj (ui s)), s).

Definition set (f : Ui -> Ui) : M unit := fun s =>
  (Ret tt, Build_App (geminiApiKey s) (firestoreReady s) (f (ui s))
                     (store s) (world s) (tick s) (effects s)).

Definition emit (e : Effect) : M unit := fun s =>
  (Ret tt, Build_App (geminiApiKey s) (firestoreReady s) (ui s)
                     (store s) (world s) (tick s) (effects s ++ [e])).

(** One external interaction: its number, then the counter moves on. *)
Definition interact : M nat := fun s =>
  (Ret (tick s), Build_App (geminiApiKey s) (firestoreReady s) (ui s)
                           (store s) (world s) (S (tick s)) (effects s)).

Definition put_store (st : gmap string Doc) : M unit := fun s =>
  (Ret tt, Build_App (geminiApiKey s) (firestoreReady s) (ui s)
                     st (world s) (tick s) (effects s)).

Definition ask {A} (proj : App -> A) : M A := fun s => (Ret (proj s), s).

(** [new Date().toISOString()], [Date.now()] *)
Definition now : M Timestamp :=
  n <- interact ;; w <- ask world ;; ret (time w n).

(** [await fetch(apiUrl, {method: 'POST', ..., body: JSON.stringify(payload)})] *)
Definition fetch (r : Request) : M Response :=
  emit (EvFetch r) ;;
  n <- interact ;; w <- ask world ;;
  match net w n with
  | NetworkError msg => throw (TypeError msg)
  | Responded resp => ret resp
  end.

(** [await response.json()] *)
Definition json (r : Response) : M GenResult :=
  match body r with
  | BodyInvalid msg => throw (SyntaxError msg)
  | BodyJson g => ret g
  end.

(** Modelled from the spec: the Firestore SDK behind [setDoc] is not among
    the sources; section 4.5 gives [create(doc)] as a full write and
    [mergeUpdate(id, partialDoc)] as a field-level upsert that leaves
    unspecified fields untouched.  The document after a write of [data]
    over [old]. *)
Definition written (merge : bool) (old : option Doc) (data : Doc) : Doc :=
  if merge then default [] old ++ data else data.

(** [await setDoc(ref, data)] and [await setDoc(ref, data, { merge: true })] *)
Definition setDoc (docId : string) (data : Doc) (merge : bool) : M unit :=
  emit (EvSetDoc docId data merge) ;;
  n <- interact ;; w <- ask world ;;
  match store_fault w n with
  | Some msg => throw (FirebaseError msg)
  | None =>
      st <- ask store ;;
      put_store (<[docId := written merge (st !! docId) data]> st)
  end.

(** [await getDoc(ref)]: [None] when [exists()] is false. *)
Definition getDoc (docId : string) : M (option Doc) :=
  emit (EvGetDoc docId) ;;
  n <- interact ;; w <- ask world ;;
  match store_fault w n with
  | Some msg => throw (FirebaseError msg)
  | None => st <- ask store ;; ret (st !! docId)
  end.

(** Running a handler from an event: a rejection of the returned promise
    is unhandled, the state changes made so far remain. *)
Definition exec (h : M unit) (s : App) : App := snd (h s).

(** ** Small JavaScript helpers *)

(** The double-quote character of the prompts. *)
Definition dq : string := String (Ascii.ascii_of_nat 34) EmptyString.

(** Strings hold the UTF-8 encoding of the JavaScript string.

    [String.prototype.trim] removes the white space and line terminators
    of ECMAScript: U+0009 to U+000D and U+0020; U+00A0; U+1680; U+2000 to
    U+200A, U+2028, U+2029, U+202F; U+205F; U+3000; U+FEFF.  The first
    group is one byte each, U+00A0 two bytes, the others three. *)
Definition is_space (c : Ascii.ascii) : bool :=
  let n := Ascii.nat_of_ascii c in
  (Nat.eqb n 32 || (Nat.leb 9 n && Nat.leb n 13))%bool.

(** U+00A0 is [C2 A0]. *)
Definition is_space2 (c1 c2 : Ascii.ascii) : bool :=
  (Nat.eqb (Ascii.nat_of_ascii c1) 194 && Nat.eqb (Ascii.nat_of_ascii c2) 160)%bool.

(** U+1680 is [E1 9A 80]; U+2000 to U+200A are [E2 80 80] to [E2 80 8A],
    U+2028, U+2029 and U+202F are [E2 80 A8], [E2 80 A9] and [E2 80 AF];
    U+205F is [E2 81 9F]; U+3000 is [E3 80 80]; U+FEFF is [EF BB BF]. *)
Definition is_space3 (c1 c2 c3 : Ascii.ascii) : bool :=
  let n1 := Ascii.nat_of_ascii c1 in
  let n2 := Ascii.nat_of_ascii c2 in
  let n3 := Ascii.nat_of_ascii c3 in
  ((Nat.eqb n1 225 && Nat.eqb n2 154 && Nat.eqb n3 128)
   || (Nat.eqb n1 226 && Nat.eqb n2 128
       && ((Nat.leb 128 n3 && Nat.leb n3 138)
           || Nat.eqb n3 168 || Nat.eqb n3 169 || Nat.eqb n3 175))
   || (Nat.eqb n1 226 && Nat.eqb n2 129 && Nat.eqb n3 159)
   || (Nat.eqb n1 227 && Nat.eqb n2 128 && Nat.eqb n3 128)
   || (Nat.eqb n1 239 && Nat.eqb n2 187 && Nat.eqb n3 191))%bool.

(** [!s.trim()]: the trimmed string is empty, that is, the string
    consists of such characters only.  A byte 160 that no sequence
    accounts for is taken as the code unit U+00A0. *)
Fixpoint is_blank (s : string) : bool :=
  match s with
  | EmptyString => true
  | String c1 rest1 =>
      if (is_space c1 || Nat.eqb (Ascii.nat_of_ascii c1) 160)%bool then is_blank rest1
      else
        match rest1 with
        | EmptyString => false
        | String c2 rest2 =>
            if is_space2 c1 c2 then is_blank rest2
            else
              match rest2 with
              | EmptyString => false
              | String c3 rest3 => (is_space3 c1 c2 c3 && is_blank rest3)%bool
              end
        end
  end.

(** A string in a boolean position: the empty string is falsy. *)
Definition truthy (s : string) : bool :=
  match s with EmptyString => false | String _ _ => true end.

(** [a || b] on strings. *)
Definition or_else (a b : string) : string := if truthy a then a else b.

(** [!geminiApiKey]: an unset variable and an empty one both count as
    missing; otherwise the key. *)
Definition present_key (k : option string) : option string :=
  match k with
  | Some key => if truthy key then Some key else None
  | None => None
  end.

(** The result of [JSON.parse]: a thrown [SyntaxError] or the value. *)
Inductive Parsed (T : Type) := ParseError (msg : string) | ParsedValue (v : T).
Arguments ParseError {T} msg.
Arguments ParsedValue {T} v.

Definition parsed {T} (p : Parsed T) : M T :=
  match p with
  | ParseError msg => throw (SyntaxError msg)
  | ParsedValue v => ret v
  end.

(** The guard
    [r.candidates && r.candidates.length > 0 && r.candidates[0].content
     && r.candidates[0].content.parts && r.candidates[0].content.parts.length > 0]
    and, when it holds, [r.candidates[0].content.parts[0].text]. *)
Definition first_text (r : GenResult) : option string :=
  match candidates r with
  | Some (c :: _) =>
      match content c with
      | Some ct =>
          match parts ct with
          | Some (p :: _) => Some (text p)
          | _ => None
          end
      | None => None
      end
  | _ => None
  end.

(** The request payload object [{contents, generationConfig}]. *)
Record Payload := { prompt : string; schema : Schema }.

(** Evaluating an identifier against the bindings in scope at that point
    of a function; an unbound one throws [ReferenceError]. *)
Fixpoint identifier (x : string) (scope : list (string * Payload)) : M Payload :=
  match scope with
  | [] => throw (ReferenceError (x +:+ " is not defined"))
  | (y, v) :: rest => if String.eqb x y then ret v else identifier x rest
  end.

(** [fetch(apiUrl, { ..., body: JSON.stringify(payload) })] with
    [apiUrl] ending in [?key=${geminiApiKey}]. *)
Definition post (key : string) (p : Payload) : M Response :=
  fetch (Build_Request key (prompt p) (schema p)).

(** ** Firestore helper (lines 148-163) *)

Definition updateModuleInFirestore (moduleId : string) (data : Doc) : M unit :=
  ready <- ask firestoreReady ;;
  if negb ready then
    set (setErrorMessage "Database not ready. Please try again.")
  else
    try_catch
      (setDoc moduleId data true)
      (fun error =>
         set (setErrorMessage ("Failed to save module progress: " +:+ message error))).

(** ** Content generation (lines 166-386) *)

Definition apiKeyMissing : string :=
  "Gemini API Key is not set. Please set REACT_APP_GEMINI_API_KEY in your .env file.".

Definition resourcePrompt (moduleName : string) : string :=
  "Provide 3-5 highly recommended, reputable, and ideally open-access or widely available online resources (PDFs, websites, video series) for learning "
  +:+ dq +:+ moduleName +:+ dq +:+
  ". Format as a JSON array of objects with 'title' and 'url' properties. If a direct URL isn't common, provide a general description/search term.".

Definition assignmentPrompt (moduleName : string) : string :=
  "Generate a comprehensive assignment for a module on " +:+ dq +:+ moduleName +:+ dq +:+ ".
            The assignment MUST strictly follow the structural layout (number of sections, number of tasks per section, marks per task, types of tasks like text_input/code_input) of a typical coding assignment, similar to the " +:+ dq +:+ "Simple Health Tracker Application" +:+ dq +:+ " example you were previously given.
            However, the ENTIRE CONTENT (scenario, question titles, task descriptions, and resources) must be ORIGINAL and RELEVANT to " +:+ dq +:+ moduleName +:+ dq +:+ ", NOT about health tracking or Python unless " +:+ dq +:+ moduleName +:+ dq +:+ " is specifically a Python topic.
            For any coding tasks, assume Python is the default language unless a different language is strongly implied by the module name.
            Ensure all fields in the JSON schema are populated accurately and completely.

            Assignment Structure Example (DO NOT USE THIS CONTENT, ONLY THE STRUCTURE):
            Total Marks: 100
            Scenario: Your assignment will have a main scenario.

            Question 1: (20 Marks)
            Sub-Scenario: This question will have a sub-scenario.
            Task 1.1: (10 Marks) [text_input]
            Task 1.2: (10 Marks) [text_input]

            Question 2: (30 Marks)
            Sub-Scenario: This question will have a sub-scenario.
            Task 2.1: (15 Marks) [code_input, e.g., Python]
            Task 2.2: (15 Marks) [code_input, e.g., Python]

            Question 3: (20 Marks)
            Sub-Scenario: This question will have a sub-scenario.
            Task 3.1: (20 Marks) [text_input]

            Question 4: (30 Marks)
            Sub-Scenario: This question will have a sub-scenario.
            Task 4.1: (20 Marks) [text_input]
            Task 4.2: (10 Marks) [text_input]

            Provide the output as a JSON object strictly following this schema, including relevant resources for " +:+ dq +:+ moduleName +:+ dq +:+ ":
            ".

(** The two placeholder lists of lines 211 and 214. *)
Definition picksMalformed : list Pick :=
  [ {| pick_title := "Could not generate specific picks. Please try again or add manually.";
       pick_url := Some "#" |} ].

Definition picksMissing : list Pick :=
  [ {| pick_title := "No specific picks generated. Please add your own resources.";
       pick_url := Some "#" |} ].

(** The placeholder assignment, written twice in the source (lines 345-357
    and 361-373) with the same contents. *)
Definition fallbackAssignment (moduleName : string) : Assignment :=
  {| a_title := "Generic Assignment for " +:+ moduleName;
     total_marks := 100%float;
     scenario := {| sc_title := "Generic Scenario";
                    sc_description := "This is a fallback assignment." |};
     sections :=
       [ {| section_id := "fallback1";
            section_title := "Part 1: Fallback Tasks";
            section_marks := 50%float;
            sub_scenario := {| sc_title := "Fallback Sub-scenario";
                               sc_description := "Review basic concepts." |};
            tasks := [ {| task_id := "F1.1";
                          task_description := "Complete task A.";
                          task_marks := 25%float;
                          task_type := "text_input";
                          task_language := None |} ] |} ];
     a_resources := [] |}.

Section Handlers.

(** [JSON.parse] at the three places it is applied, typed by the use
    made of its result: the resource list, the assignment object and the
    question set. *)
Variable parsePicks : string -> Parsed (list Pick).
Variable parseAssignment : string -> Parsed Assignment.
Variable parseQuestions : string -> Parsed (list Question).

(** The body of the [try] block of [generateModuleContent] up to the
    first persistence write (lines 176-217). *)
Definition generateTeacherPicks (key moduleName moduleId : string)
    (resourcePayload : Payload) : M unit :=
  resourceResponse <- post key resourcePayload ;;
  resourceResult <- json resourceResponse ;;
  parsedResources <-
    match first_text resourceResult with
    | Some t =>
        try_catch
          (parsed (parsePicks t))
          (fun _ =>
             set (setErrorMessage
                    "AI generated malformed resources. Trying again or using fallback.") ;;
             ret picksMalformed)
    | None => ret picksMissing
    end ;;
  set (setTeacherPicks parsedResources) ;;
  updateModuleInFirestore moduleId [FTeacherPicks parsedResources].

(** The list that branch passes to [setTeacherPicks] for a body [g]. *)
Definition picks_of (g : GenResult) : list Pick :=
  match first_text g with
  | Some t =>
      match parsePicks t with
      | ParsedValue v => v
      | ParseError _ => picksMalformed
      end
  | None => picksMissing
  end.

(** The rest of the [try] block (lines 219-376).  The request object is
    bound to [assignmentPayload] (line 317) while line 328 sends
    [JSON.stringify(payload)]: no [payload] is bound in this function or
    around it (the one of line 596 is local to [generateTest]). *)
Definition generateAssignment (key moduleName moduleId : string)
    (resourcePayload : Payload) : M unit :=
  let assignmentPayload :=
    {| prompt := assignmentPrompt moduleName; schema := AssignmentSchema |} in
  let scope := [ ("resourcePayload", resourcePayload);
                 ("assignmentPayload", assignmentPayload) ] in
  body <- identifier "payload" scope ;;
  assignmentResponse <- post key body ;;
  if negb (ok assignmentResponse) then
    errorData <- json assignmentResponse ;;
    match error errorData with
    | None =>
        throw (TypeError "Cannot read properties of undefined (reading 'message')")
    | Some e =>
        throw (Error ("API error: " +:+ pretty (http_status assignmentResponse)
                      +:+ " - "
                      +:+ or_else (err_message e) (statusText assignmentResponse)))
    end
  else
    assignmentResult <- json assignmentResponse ;;
    parsedAssignment <-
      match first_text assignmentResult with
      | Some t =>
          try_catch
            (a <- parsed (parseAssignment t) ;; ret (Some a))
            (fun _ =>
               set (setErrorMessage "AI generated malformed assignment. Using fallback.") ;;
               ret (Some (fallbackAssignment moduleName)))
      | None => ret (Some (fallbackAssignment moduleName))
      end ;;
    set (setAssignmentContent parsedAssignment) ;;
    updateModuleInFirestore moduleId [FAssignmentContent parsedAssignment].

Definition generateModuleContent (moduleName moduleId : string) : M unit :=
  set (setLoading true) ;;
  set (setErrorMessage EmptyString) ;;
  k <- ask geminiApiKey ;;
  match present_key k with
  | None =>
      set (setErrorMessage apiKeyMissing) ;;
      set (setLoading false)
  | Some key =>
      finally
        (try_catch
           (let resourcePayload :=
              {| prompt := resourcePrompt moduleName; schema := ResourceListSchema |} in
            generateTeacherPicks key moduleName moduleId resourcePayload ;;
            generateAssignment key moduleName moduleId resourcePayload)
           (fun error =>
              set (setErrorMessage ("Failed to generate module content: "
                                    +:+ message error
                                    +:+ ". Ensure your API key is valid.")) ;;
              set (setTeacherPicks []) ;;
              set (setAssignmentContent None)))
        (set (setLoading false))
  end.

(** ** Module management (lines 389-438, 483-493) *)

Definition emptyAssignments : Assignments :=
  {| a_completed := None; a_responses := None |}.

(** [{ id: moduleId, ...newModuleData }] (lines 407-421). *)
Definition newModule (moduleId topic : string) (created updated : Timestamp) : Module :=
  {| id := moduleId;
     name := topic;
     status := started;
     resources := [];
     m_teacherPicks := [];
     m_assignmentContent := None;
     assignments := emptyAssignments;
     quizzes := [];
     finalTestScore := 0%float;
     certificateIssued := false;
     createdAt := created;
     lastUpdated := updated |}.

(** [newModuleData]: the same entries without [id]. *)
Definition newModuleData (topic : string) (created updated : Timestamp) : Doc :=
  tail (fields_of_module (newModule EmptyString topic created updated)).

Definition createNewModule : M unit :=
  t <- read topic ;;
  ready <- ask firestoreReady ;;
  k <- ask geminiApiKey ;;
  if is_blank t then
    set (setErrorMessage "Please enter a topic for the new module.")
  else if negb ready then
    set (setErrorMessage "Database not ready. Please wait for authentication.")
  else if match present_key k with Some _ => false | None => true end then
    set (setErrorMessage apiKeyMissing)
  else
    set (setLoading true) ;;
    set (setErrorMessage EmptyString) ;;
    finally
      (try_catch
         (ms <- now ;;
          let moduleId := "module-" +:+ pretty ms in
          created <- now ;;
          updated <- now ;;
          setDoc moduleId (newModuleData t created updated) false ;;
          set (setCurrentModule (Some (newModule moduleId t created updated))) ;;
          set (setAppPhase assignment) ;;
          set (setTopic EmptyString) ;;
          generateModuleContent t moduleId ;;
          updatedModuleDoc <- getDoc moduleId ;;
          match updatedModuleDoc with
          | Some d =>
              (* a stored document lacking a key of the module object is
                 not a [Module]; here the full write above precedes the
                 read, see [module_of_new_doc] *)
              match module_of_doc moduleId d with
              | Some m => set (setCurrentModule (Some m))
              | None => ret tt
              end
          | None => ret tt
          end ;;
          set (setCurrentAssignmentSectionIndex 0%Z) ;;
          set (setAssignmentResponses ∅))
         (fun error =>
            set (setErrorMessage ("Failed to create module: " +:+ message error))))
      (set (setLoading false)).

(** Line 25: [const [resourceInput, setResourceInput] = '';] destructures
    the empty string, whose iterator yields nothing: both names are bound
    to [undefined] for the life of the component. *)
Definition resourceInput : option string := None.

Definition addResource : M unit :=
  match resourceInput with
  | None => throw (TypeError "Cannot read properties of undefined (reading 'trim')")
  | Some r =>
      cm <- read currentModule ;;
      match (if is_blank r then None else cm) with
      | None => set (setErrorMessage "Please enter a resource or select a module.")
      | Some m =>
          let updatedResources := resources m ++ [r] in
          t <- now ;;
          let entries := [FResources updatedResources; FStatus resources_added;
                          FLastUpdated t] in
          set (setCurrentModule (Some (spread m entries))) ;;
          updateModuleInFirestore (id m) entries ;;
          throw (TypeError "setResourceInput is not a function")
      end
  end.

(** ** Assignment navigation and submission (lines 496-540) *)

Definition handleAssignmentResponseChange (sectionId taskId value : string) : M unit :=
  set (fun u =>
         let prev := assignmentResponses u in
         setAssignmentResponses
           (<[sectionId := <[taskId := value]> (default ∅ (prev !! sectionId))]> prev) u).

(** [{ ...assignments, completed: true }] *)
Definition markCompleted (a : Assignments) : Assignments :=
  {| a_completed := Some true; a_responses := a_responses a |}.

Definition goToNextAssignmentSection : M unit :=
  ac <- read assignmentContent ;;
  index <- read currentAssignmentSectionIndex ;;
  if match ac with
     | Some a => (index <? Z.of_nat (length (sections a)) - 1)%Z
     | None => false
     end
  then
    set (fun u => setCurrentAssignmentSectionIndex (currentAssignmentSectionIndex u + 1)%Z u)
  else
    cm <- read currentModule ;;
    match cm with
    | Some m =>
        let updatedAssignments := markCompleted (assignments m) in
        t <- now ;;
        let entries := [FAssignments updatedAssignments; FStatus assignment_done;
                        FLastUpdated t] in
        set (setCurrentModule (Some (spread m entries))) ;;
        updateModuleInFirestore (id m) entries ;;
        set (setAppPhase quiz)
    | None => ret tt
    end.

Definition goToPreviousAssignmentSection : M unit :=
  index <- read currentAssignmentSectionIndex ;;
  if (0 <? index)%Z then
    set (fun u => setCurrentAssignmentSectionIndex (currentAssignmentSectionIndex u - 1)%Z u)
  else ret tt.

Definition submitAssignment : M unit :=
  cm <- read currentModule ;;
  ac <- read assignmentContent ;;
  match cm, ac with
  | Some m, Some _ =>
      responses <- read assignmentResponses ;;
      let updatedAssignments :=
        {| a_completed := Some true; a_responses := Some responses |} in
      t <- now ;;
      let entries := [FAssignments updatedAssignments; FStatus assignment_done;
                      FLastUpdated t] in
      set (setCurrentModule (Some (spread m entries))) ;;
      updateModuleInFirestore (id m) entries ;;
      set (setAppPhase quiz) ;;
      emit (EvAlert "Assignment submitted! (In a real app, this would be graded)")
  | _, _ => set (setErrorMessage "No assignment to submit.")
  end.

(** ** Test generation (lines 543-654) *)

Definition quizMetrics : Metrics :=
  {| practicalityTheoreticity := "60% Theoretical / 40% Practical";
     predictability := "Highly Predictable";
     difficulty := "Intermediate Graduate Level";
     alignment := "100% Aligned with designated resources.";
     learningTime := "5-10 minutes per attempt";
     proficiencyRequired := "Basic understanding of concepts." |}.

Definition finalTestMetrics : Metrics :=
  {| practicalityTheoreticity := "50% Theoretical / 50% Practical";
     predictability := "Moderately Predictable (requires synthesis)";
     difficulty := "High Graduate Level";
     alignment := "100% Aligned with designated resources.";
     learningTime := "2-3 hours for completion";
     proficiencyRequired := "Strong, analytical understanding and problem-solving skills." |}.

(** [p.url || p.title] *)
Definition pickLabel (p : Pick) : string :=
  match pick_url p with
  | Some u => or_else u (pick_title p)
  | None => pick_title p
  end.

Definition testPrompt (type : TestType) (m : Module) (picks : list Pick) : string :=
  let combinedResources := resources m ++ map pickLabel picks in
  let resourceListForPrompt :=
    match combinedResources with
    | [] => "The questions must be directly based on standard academic textbooks and lectures."
    | _ => "The questions must be directly based on the following types of resources: "
           +:+ String.concat ", " combinedResources +:+ "."
    end in
  let promptBase :=
    "Generate a multiple-choice test with 5 questions about " +:+ dq +:+ name m +:+ dq
    +:+ ". Each question should have 4 options (A, B, C, D) and indicate the correct answer. "
    +:+ resourceListForPrompt in
  match type with
  | Quiz => promptBase +:+ " Focus on fundamental concepts and problem-solving applications. This is a practice quiz."
  | FinalTest => promptBase +:+ " This is a comprehensive final test, covering both theoretical derivations and complex problem-solving."
  end.

Definition generateTest (type : TestType) : M unit :=
  cm <- read currentModule ;;
  k <- ask geminiApiKey ;;
  match cm with
  | None => set (setErrorMessage "Please select or create a module first.")
  | Some m =>
      match present_key k with
      | None => set (setErrorMessage apiKeyMissing)
      | Some key =>
          set (setLoading true) ;;
          set (setErrorMessage EmptyString) ;;
          set (setQuestions []) ;;
          set (setUserAnswers ∅) ;;
          set (setScore 0%float) ;;
          set (setShowCertificate false) ;;
          set (setAssessmentMetrics None) ;;
          picks <- read teacherPicks ;;
          let promptSpecific := testPrompt type m picks in
          let simulatedMetrics :=
            match type with Quiz => quizMetrics | FinalTest => finalTestMetrics end in
          set (setAssessmentMetrics (Some simulatedMetrics)) ;;
          finally
            (try_catch
               (let payload := {| prompt := promptSpecific; schema := QuestionSetSchema |} in
                let scope := [ ("payload", payload) ] in
                body <- identifier "payload" scope ;;
                response <- post key body ;;
                if negb (ok response) then
                  errorData <- json response ;;
                  match error errorData with
                  | None =>
                      throw (TypeError "Cannot read properties of undefined (reading 'message')")
                  | Some e =>
                      throw (Error ("API error: " +:+ pretty (http_status response)
                                    +:+ " - "
                                    +:+ or_else (err_message e) (statusText response)))
                  end
                else
                  result <- json response ;;
                  match first_text result with
                  | Some jsonString =>
                      parsedQuestions <- parsed (parseQuestions jsonString) ;;
                      set (setQuestions parsedQuestions)
                  | None =>
                      set (setErrorMessage "Failed to generate questions. Please try again.")
                  end)
               (fun error =>
                  set (setErrorMessage ("Error generating test: " +:+ message error
                         +:+ ". Ensure your API key is valid and enabled for Gemini."))))
            (set (setLoading false))
      end
  end.

(** ** Answering and scoring (lines 656-713) *)

Definition handleAnswerChange (questionIndex : nat) (selectedOption : string) : M unit :=
  set (fun u => setUserAnswers (<[questionIndex := selectedOption]> (userAnswers u)) u).

(** [userAnswers[index]]: an index without an entry reads as [undefined]. *)
Definition recorded (answers : gmap nat string) (index : nat) : Value :=
  match answers !! index with
  | Some selected => Str selected
  | None => Undefined
  end.

(** [userAnswers[index] === q.correctAnswer] (line 671): two strings are
    compared as strings, [undefined] equals only [undefined]. *)
Definition isCorrect (answers : gmap nat string) (index : nat) (q : Question) : bool :=
  match recorded answers index, correctAnswer q with
  | Str selected, Str correct => String.eqb selected correct
  | Undefined, Undefined => true
  | _, _ => false
  end.

(** The [forEach] loop of lines 670-674, from [index] on, with the
    running [correctCount]. *)
Fixpoint countCorrect (answers : gmap nat string) (qs : list Question)
    (index correctCount : nat) : nat :=
  match qs with
  | [] => correctCount
  | q :: rest =>
      countCorrect answers rest (S index)
        (if isCorrect answers index q then S correctCount else correctCount)
  end.

(** [(correctCount / questions.length) * 100] *)
Definition calculateScore (answers : gmap nat string) (qs : list Question) : float :=
  (number (countCorrect answers qs 0 0) / number (length qs) * 100)%float.

(** [calculatedScore >= 80] *)
Definition passes (s : float) : bool := (80 <=? s)%float.

Definition passComment (certificate : bool) : string :=
  if certificate then "Congratulations! You have mastered this module."
  else "This module requires further study and practice.".

Definition submitTest (type : TestType) : M unit :=
  qs <- read questions ;;
  match qs with
  | [] => set (setErrorMessage "Please generate a test first.")
  | _ :: _ =>
      answers <- read userAnswers ;;
      let calculatedScore := calculateScore answers qs in
      set (setScore calculatedScore) ;;
      cm <- read currentModule ;;
      match cm with
      | None => ret tt
      | Some m =>
          match type with
          | Quiz =>
              date <- now ;;
              let updatedQuizzes :=
                quizzes m ++ [ {| q_score := calculatedScore; q_date := date |} ] in
              t <- now ;;
              let entries := [FQuizzes updatedQuizzes; FLastUpdated t] in
              set (setCurrentModule (Some (spread m entries))) ;;
              updateModuleInFirestore (id m) entries ;;
              if passes calculatedScore then set (setAppPhase finalTest) else ret tt
          | FinalTest =>
              let certificate := passes calculatedScore in
              let newStatus := if certificate then completed else needs_revisit in
              t <- now ;;
              let entries := [FFinalTestScore calculatedScore;
                              FCertificateIssued certificate;
                              FStatus newStatus; FLastUpdated t] in
              set (setCurrentModule (Some (spread m entries))) ;;
              updateModuleInFirestore (id m) entries ;;
              set (setLastScoreDetails
                     (Some {| sd_score := calculatedScore;
                              sd_comment := passComment certificate;
                              sd_certificateIssued := certificate |})) ;;
              set (setShowCertificate certificate) ;;
              set (setAppPhase results)
          end
      end
  end.

(** ** Reset (lines 720-744) *)

Definition resetModuleForRetry : M unit :=
  cm <- read currentModule ;;
  match cm with
  | None => ret tt
  | Some m =>
      t <- now ;;
      let updatedModule :=
        spread m [FStatus started; FAssignments emptyAssignments; FQuizzes [];
                  FFinalTestScore 0%float; FCertificateIssued false;
                  FLastUpdated t] in
      set (setCurrentModule (Some updatedModule)) ;;
      updateModuleInFirestore (id m) (fields_of_module updatedModule) ;;
      set (setAppPhase assignment) ;;
      set (setCurrentAssignmentSectionIndex 0%Z) ;;
      set (setAssignmentResponses ∅) ;;
      set (setQuestions []) ;;
      set (setUserAnswers ∅) ;;
      set (setScore 0%float) ;;
      set (setShowCertificate false) ;;
      set (setUserName EmptyString) ;;
      set (setErrorMessage EmptyString) ;;
      set (setAssessmentMetrics None) ;;
      set (setLastScoreDetails None)
  end.

(** ** Operations *)

(** The handlers a learner's action can invoke, with their arguments;
    [OpSetTopic] is the topic input's [onChange]. *)
Inductive Op :=
  | OpSetTopic (t : string)
  | OpCreateNewModule
  | OpAddResource
  | OpHandleAssignmentResponseChange (sectionId taskId value : string)
  | OpGoToNextAssignmentSection
  | OpGoToPreviousAssignmentSection
  | OpSubmitAssignment
  | OpGenerateTest (type : TestType)
  | OpHandleAnswerChange (questionIndex : nat) (selectedOption : string)
  | OpSubmitTest (type : TestType)
  | OpResetModuleForRetry.

Definition handler (op : Op) : M unit :=
  match op with
  | OpSetTopic t => set (setTopic t)
  | OpCreateNewModule => createNewModule
  | OpAddResource => addResource
  | OpHandleAssignmentResponseChange s t v => handleAssignmentResponseChange s t v
  | OpGoToNextAssignmentSection => goToNextAssignmentSection
  | OpGoToPreviousAssignmentSection => goToPreviousAssignmentSection
  | OpSubmitAssignment => submitAssignment
  | OpGenerateTest ty => generateTest ty
  | OpHandleAnswerChange i o => handleAnswerChange i o
  | OpSubmitTest ty => submitTest ty
  | OpResetModuleForRetry => resetModuleForRetry
  end.

(** A sequence of operations, each run to completion before the next. *)
Definition run (ops : list Op) (s : App) : App :=
  fold_left (fun acc op => exec (handler op) acc) ops s.

(** The operations under which the certificate invariant is followed:
    all but [addResource], with assignment completion applied to a module
    that is not completed (no screen of a completed module offers it). *)
Definition lifecycle_op (op : Op) (s : App) : Prop :=
  match op with
  | OpAddResource => False
  | OpGoToNextAssignmentSection | OpSubmitAssignment =>
      forall m, currentModule (ui s) = Some m -> status m <> completed
  | _ => True
  end.

(** The states reached from [s0] by such operations. *)
Inductive history (s0 : App) : App -> Prop :=
  | history_start : history s0 s0
  | history_step (op : Op) (s : App) :
      history s0 s -> lifecycle_op op s -> history s0 (exec (handler op) s).

End Handlers.

(** ** Initial state *)

(** The [useState] defaults of lines 22-43. *)
Definition initialUi : Ui :=
  {| currentModule := None;
     topic := EmptyString;
     questions := [];
     userAnswers := ∅;
     score := 0%float;
     showCertificate := false;
     userName := EmptyString;
     loading := false;
     errorMessage := EmptyString;
     appPhase := moduleSelect;
     assessmentMetrics := None;
     lastScoreDetails := None;
     teacherPicks := [];
     assignmentContent := None;
     currentAssignmentSectionIndex := 0%Z;
     assignmentResponses := ∅ |}.

Definition initialApp (key : option string) (ready : bool) (w : World) : App :=
  {| geminiApiKey := key;
     firestoreReady := ready;
     ui := initialUi;
     store := ∅;
     world := w;
     tick := 0;
     effects := [] |}.

(** ** Properties stated about the handlers *)

(** Number of questions whose recorded answer is exactly the correct one. *)
Definition correct_answers (answers : gmap nat string) (qs : list Question) : nat :=
  length (filter (fun iq => recorded answers iq.1 = correctAnswer iq.2) (imap pair qs)).

(** Number of questions with a recorded answer. *)
Definition answered (answers : gmap nat string) (qs : list Question) : nat :=
  length (filter (fun i => is_Some (answers !! i)) (seq 0 (length qs))).

(** [certificateIssued == true <=> status == 'completed'] *)
Definition certificate_invariant (m : Module) : Prop :=
  certificateIssued m = true <-> status m = completed.

Definition module_ok (s : App) : Prop :=
  forall m, currentModule (ui s) = Some m -> certificate_invariant m.

(** One half of it: a completed module holds a certificate. *)
Definition completed_certified (s : App) : Prop :=
  forall m, currentModule (ui s) = Some m ->
  status m = completed -> certificateIssued m = true.

(** The transitions of the state machine of section 4.1 of the specification. *)
Definition listed_transition (from to : Status) : bool :=
  match from, to with
  | started, assignment_done | resources_added, assignment_done => true
  | assignment_done, completed | assignment_done, needs_revisit => true
  | needs_revisit, started => true
  | _, _ => false
  end.

(** The order of the statuses along the life of a module. *)
Definition rank (st : Status) : nat :=
  match st with
  | started => 0
  | resources_added => 1
  | assignment_done => 2
  | needs_revisit => 3
  | completed => 3
  end.

(** Requests for a given schema, and writes of [assignmentContent],
    among the effects. *)
Definition fetches_schema (sc : Schema) (e : Effect) : bool :=
  match e with
  | EvFetch r =>
      match req_schema r, sc with
      | ResourceListSchema, ResourceListSchema
      | AssignmentSchema, AssignmentSchema
      | QuestionSetSchema, QuestionSetSchema => true
      | _, _ => false
      end
  | _ => false
  end.

Definition mentions_assignmentContent (e : Effect) : bool :=
  match e with
  | EvSetDoc _ data _ =>
      existsb (fun f => match f with FAssignmentContent _ => true | _ => false end) data
  | _ => false
  end.

(** The values the assignment schema (lines 253-315) admits for the two
    enumerated strings; the other required keys are fields of the records. *)
Definition valid_task (t : Task) : bool :=
  (String.eqb (task_type t) "text_input" || String.eqb (task_type t) "code_input")%bool.

Definition valid_resource (r : AResource) : bool :=
  (String.eqb (ar_type r) "website" || String.eqb (ar_type r) "video"
   || String.eqb (ar_type r) "pdf" || String.eqb (ar_type r) "book")%bool.

Definition schema_valid (a : Assignment) : bool :=
  (forallb (fun sec => forallb valid_task (tasks sec)) (sections a)
   && forallb valid_resource (a_resources a))%bool.

(** A float above zero: finite or infinite, with the sign bit clear. *)
Definition positive_float (x : spec_float) : Prop :=
  match x with
  | S754_finite false _ _ | S754_infinity false => True
  | _ => False
  end.

(** The state [s] with the assignment shown at section [i]. *)
Definition at_section (i : Z) (s : App) : App :=
  exec (set (setCurrentAssignmentSectionIndex i)) s.

(** A freshly created module: status 'started', no certificate. *)
Definition fresh (m : Module) : Prop :=
  status m = started /\ certificateIssued m = false.

(** ** Sample data for concrete runs *)

(** A world where the service is unreachable and the store works. *)
Definition offlineWorld : World :=
  {| net := fun _ => NetworkError "Failed to fetch";
     store_fault := fun _ => None;
     time := fun n => n |}.

Definition textResponse (t : string) : Response :=
  {| ok := true; http_status := 200; statusText := "OK";
     body := BodyJson {| candidates := Some [ {| content := Some {| parts := Some [ {| text := t |} ] |} |} ];
                         error := None |} |}.

(** A world where every request is answered with the text [oops]. *)
Definition garbledWorld : World :=
  {| net := fun _ => Responded (textResponse "oops");
     store_fault := fun _ => None;
     time := fun n => n |}.

(** [JSON.parse] on the texts of the sample runs: [expected] is the JSON
    text of [v]; anything else met there is not JSON. *)
Definition parseOnly {T} (expected : string) (v : T) (t : string) : Parsed T :=
  if String.eqb t expected then ParsedValue v else ParseError "Unexpected token".

Definition picksParser : string -> Parsed (list Pick) :=
  parseOnly "[]" [].

(** No text of the sample runs is an assignment object. *)
Definition assignmentParser : string -> Parsed Assignment :=
  fun _ => ParseError "Unexpected token".

Definition sampleQuestions : list Question :=
  [ {| question := "Q1"; options := [("A","a");("B","b");("C","c");("D","d")]; correctAnswer := Str "A" |};
    {| question := "Q2"; options := [("A","a");("B","b");("C","c");("D","d")]; correctAnswer := Str "B" |};
    {| question := "Q3"; options := [("A","a");("B","b");("C","c");("D","d")]; correctAnswer := Str "C" |};
    {| question := "Q4"; options := [("A","a");("B","b");("C","c");("D","d")]; correctAnswer := Str "D" |};
    {| question := "Q5"; options := [("A","a");("B","b");("C","c");("D","d")]; correctAnswer := Str "A" |} ].

(** The JSON text of a question set. *)
Definition json_string (s : string) : string := dq +:+ s +:+ dq.

Definition question_json (q : Question) : string :=
  "{" +:+ json_string "question" +:+ ":" +:+ json_string (question q) +:+ ","
  +:+ json_string "options" +:+ ":{"
  +:+ String.concat ","
        (map (fun kv => json_string kv.1 +:+ ":" +:+ json_string kv.2) (options q))
  +:+ "}"
  +:+ (match correctAnswer q with
       | Undefined => EmptyString
       | Str a => "," +:+ json_string "correctAnswer" +:+ ":" +:+ json_string a
       | NotAString => "," +:+ json_string "correctAnswer" +:+ ":null"
       end)
  +:+ "}".

Definition questions_json (qs : list Question) : string :=
  "[" +:+ String.concat "," (map question_json qs) +:+ "]".

Definition questionsParser : string -> Parsed (list Question) :=
  parseOnly (questions_json sampleQuestions) sampleQuestions.

(** A world where the content requests of module creation (interactions
    below 7) are answered with [oops] and later requests with the JSON
    text of [sampleQuestions]. *)
Definition examWorld : World :=
  {| net := fun n =>
       Responded (textResponse (if Nat.ltb n 7 then "oops"
                                else questions_json sampleQuestions));
     store_fault := fun _ => None;
     time := fun n => n |}.

Definition sampleAssignment : Assignment :=
  {| a_title := "Graph Theory Basics";
     total_marks := 100%float;
     scenario := {| sc_title := "Road network"; sc_description := "Model a city." |};
     sections :=
       map (fun n => {| section_id := n; section_title := n; section_marks := 30%float;
                        sub_scenario := {| sc_title := n; sc_description := n |};
                        tasks := [] |})
           ["s1"; "s2"; "s3"];
     a_resources := [] |}.

Definition sampleModule (st : Status) (cert : bool) : Module :=
  {| id := "module-1";
     name := "Graph Theory Basics";
     status := st;
     resources := ["notes.pdf"];
     m_teacherPicks := [ {| pick_title := "Diestel"; pick_url := None |} ];
     m_assignmentContent := Some sampleAssignment;
     assignments := {| a_completed := Some true; a_responses := None |};
     quizzes := [ {| q_score := 80%float; q_date := 3 |} ];
     finalTestScore := 60%float;
     certificateIssued := cert;
     createdAt := 1;
     lastUpdated := 4 |}.

(** The application with [m] selected, [sampleAssignment] loaded and
    [sampleQuestions] generated, at section [index]. *)
Definition sampleApp (key : option string) (m : option Module)
    (answers : gmap nat string) (index : Z) : App :=
  {| geminiApiKey := key;
     firestoreReady := true;
     ui := setCurrentAssignmentSectionIndex index
             (setAssignmentContent (Some sampleAssignment)
                (setUserAnswers answers
                   (setQuestions sampleQuestions
                      (setCurrentModule m initialUi))));
     store := ∅;
     world := offlineWorld;
     tick := 10;
     effects := [] |}.

(** A learner who creates a module, has a final test generated, answers
    all five questions correctly and submits it. *)
Definition passFinalTest : list Op :=
  [ OpSetTopic "Graph Theory Basics"; OpCreateNewModule;
    OpGenerateTest FinalTest;
    OpHandleAnswerChange 0 "A"; OpHandleAnswerChange 1 "B";
    OpHandleAnswerChange 2 "C"; OpHandleAnswerChange 3 "D";
    OpHandleAnswerChange 4 "A";
    OpSubmitTest FinalTest ].

(** ** Module selection (lines 142-145, 440-481) *)

(** [getModuleDocRef]: [null] unless [db && userId], otherwise the
    reference of the document [moduleId] in the user's collection. *)
Definition getModuleDocRef (moduleId : string) : M (option string) :=
  ready <- ask firestoreReady ;;
  ret (if ready then Some moduleId else None).

(** [await getDoc(ref)] where [ref] may be [null]: the SDK rejects a
    [null] reference before it reaches the store. *)
Definition getDocAt (ref : option string) : M (option Doc) :=
  match ref with
  | Some docId => getDoc docId
  | None => throw (TypeError "Cannot use 'in' operator to search for '_delegate' in null")
  end.

(** [!module.assignmentContent || !module.teacherPicks ||
     module.teacherPicks.length === 0], negated. *)
Definition hasContent (m : Module) : bool :=
  match m_assignmentContent m, m_teacherPicks m with
  | Some _, _ :: _ => true
  | _, _ => false
  end.

(** [module.quizzes.length > 0 && module.quizzes.every(q => q.score >= 80)] *)
Definition allQuizzesPassed (m : Module) : bool :=
  match quizzes m with
  | [] => false
  | _ :: _ => forallb (fun q => passes (q_score q)) (quizzes m)
  end.

Section Selection.

Variable parsePicks : string -> Parsed (list Pick).
Variable parseAssignment : string -> Parsed Assignment.

Definition selectModule (module : Module) : M unit :=
  set (setCurrentModule (Some module)) ;;
  set (setErrorMessage EmptyString) ;;
  set (setTeacherPicks (m_teacherPicks module)) ;;
  set (setAssignmentContent (m_assignmentContent module)) ;;
  match status module with
  | completed | needs_revisit =>
      set (setAppPhase results) ;;
      set (setLastScoreDetails
             (Some {| sd_score := finalTestScore module;
                      sd_comment :=
                        passComment (match status module with
                                     | completed => true
                                     | _ => false
                                     end);
                      sd_certificateIssued := certificateIssued module |}))
  | _ =>
      (if hasContent module then ret tt
       else
         set (setAppPhase assignment) ;;
         set (setLoading true) ;;
         generateModuleContent parsePicks parseAssignment (name module) (id module) ;;
         ref <- getModuleDocRef (id module) ;;
         updatedModuleDoc <- getDocAt ref ;;
         match updatedModuleDoc with
         | Some d =>
             (* as in [createNewModule], a stored document lacking a key
                of the module object is not a [Module]; a key missing
                from the data reads as [undefined], which the handlers
                treat like [null] and like the empty list *)
             match module_of_doc (id module) d with
             | Some m => set (setCurrentModule (Some m))
             | None => ret tt
             end ;;
             set (setAssignmentContent (default None (doc_get in_assignmentContent d))) ;;
             set (setTeacherPicks (default [] (doc_get in_teacherPicks d)))
         | None => ret tt
         end ;;
         set (setLoading false)) ;;
      (match status module with
       | assignment_done => set (setAppPhase quiz)
       | _ => if allQuizzesPassed module then set (setAppPhase finalTest)
              else set (setAppPhase assignment)
       end) ;;
      set (setCurrentAssignmentSectionIndex 0%Z) ;;
      set (setAssignmentResponses ∅)
  end.

End Selection.

(** The phase [selectModule] derives from the module it is given. *)
Definition derived_phase (m : Module) : Phase :=
  match status m with
  | completed | needs_revisit => results
  | assignment_done => quiz
  | _ => if allQuizzesPassed m then finalTest else assignment
  end.

(** ** The module list (lines 123-131) *)

(** [fetchedModules.sort((a, b) => new Date(b.createdAt) - new Date(a.createdAt))]:
    [Array.prototype.sort] is stable, so with this comparator the result
    is the one an insertion from the right produces: [m] goes in front of
    the first module that is not newer than it. *)
Fixpoint insertModule (m : Module) (sorted : list Module) : list Module :=
  match sorted with
  | [] => [m]
  | x :: rest =>
      if Nat.leb (createdAt x) (createdAt m) then m :: x :: rest
      else x :: insertModule m rest
  end.

Definition sortModules (fetchedModules : list Module) : list Module :=
  fold_right insertModule [] fetchedModules.

(** ** What the screens offer (lines 873-899, 1062, 1162-1194) *)

(** [renderAssignmentPhase] up to the choice of the buttons: the two
    early returns, then [isFirstSection] and [isLastSection] of the
    section shown; reading a field of a section that does not exist
    throws while rendering. *)
Inductive AssignmentView :=
  | NoAssignmentLoaded
  | LoadingAssignment
  | RenderThrows
  | SectionShown (isFirstSection isLastSection : bool).

Definition renderAssignmentPhase (u : Ui) : AssignmentView :=
  match currentModule u, assignmentContent u with
  | None, _ => NoAssignmentLoaded
  | Some _, None => if loading u then LoadingAssignment else NoAssignmentLoaded
  | Some _, Some a =>
      if loading u then LoadingAssignment
      else
        let index := currentAssignmentSectionIndex u in
        let inRange := ((0 <=? index) && (index <? Z.of_nat (length (sections a))))%Z%bool in
        if inRange then
          SectionShown (index =? 0)%Z (index =? Z.of_nat (length (sections a)) - 1)%Z
        else RenderThrows
  end.

(** [disabled={!currentModule?.quizzes.some(q => q.score >= 80)}] of the
    "Proceed to Final Test" button. *)
Definition finalTestLocked (u : Ui) : bool :=
  negb (match currentModule u with
        | Some m => existsb (fun q => passes (q_score q)) (quizzes m)
        | None => false
        end).

(** The two alternatives of [renderResultsPhase]: the certificate form
    under [lastScoreDetails.certificateIssued], the "Retry Module" button
    under its negation, neither without [lastScoreDetails]. *)
Definition certificateOffered (u : Ui) : bool :=
  match lastScoreDetails u with
  | Some d => sd_certificateIssued d
  | None => false
  end.

Definition retryOffered (u : Ui) : bool :=
  match lastScoreDetails u with
  | Some d => negb (sd_certificateIssued d)
  | None => false
  end.

(** [renderContent] (lines 1223-1265) up to the choice of the screen.
    [isAuthReady] is a state variable of [App] that no handler sets; the
    [default] case of the [switch] is not reached, [appPhase] being set
    to the six listed phases only. *)
Inductive Screen :=
  | Initializing
  | ErrorPanel (message : string)
  | ModuleSelectScreen
  | ResourcesScreen
  | AssignmentScreen
  | QuizScreen
  | FinalTestScreen
  | ResultsScreen.

Definition renderContent (isAuthReady : bool) (u : Ui) : Screen :=
  if negb isAuthReady then Initializing
  else if (truthy (errorMessage u) && negb (loading u))%bool then
    ErrorPanel (errorMessage u)
  else
    match appPhase u with
    | moduleSelect => ModuleSelectScreen
    | resourcesPhase => ResourcesScreen
    | assignment => AssignmentScreen
    | quiz => QuizScreen
    | finalTest => FinalTestScreen
    | results => ResultsScreen
    end.

(** ** Reading back what the handlers recorded *)

(** [assignmentResponses[sectionId]?.[taskId] || ''], the value of a
    task's text area (lines 929, 938). *)
Definition responseShown (responses : gmap string (gmap string string))
    (sectionId taskId : string) : string :=
  match responses !! sectionId with
  | Some r => match r !! taskId with Some v => v | None => EmptyString end
  | None => EmptyString
  end.

(** The value a response delivers to [generateTest] and to
    [generateTeacherPicks]: the parsed text of the first candidate of a
    2xx response, if all of that is there. *)
Definition delivered {T} (parse : string -> Parsed T) (o : FetchOutcome) : option T :=
  match o with
  | Responded {| ok := true; body := BodyJson g |} =>
      match first_text g with
      | Some t => match parse t with ParsedValue v => Some v | ParseError _ => None end
      | None => None
      end
  | _ => None
  end.

(** An effect that is not a store access, or is a merge write to [docId]. *)
Definition touches_only (docId : string) (e : Effect) : Prop :=
  match e with
  | EvSetDoc d _ merge => d = docId /\ merge = true
  | EvGetDoc _ => False
  | EvFetch _ | EvAlert _ => True
  end.

(** The stored document of the current module reads back as the module. *)
Definition in_sync (s : App) : Prop :=
  forall m, currentModule (ui s) = Some m ->
  exists d, store s !! id m = Some d /\ module_of_doc (id m) d = Some m.

(** ** Further sample data *)

(** A topic that consists of one no-break space (U+00A0). *)
Definition nbspTopic : string :=
  String (Ascii.ascii_of_nat 194) (String (Ascii.ascii_of_nat 160) EmptyString).

(** A world without network where the store operation at interaction
    [n] is rejected with [msg]. *)
Definition faultyWorld (n : nat) (msg : string) : World :=
  {| net := fun _ => NetworkError "Failed to fetch";
     store_fault := fun k => if Nat.eqb k n then Some msg else None;
     time := fun k => k |}.

(** A world where the service answers every request with status 403. *)
Definition forbiddenWorld : World :=
  {| net := fun _ =>
       Responded {| ok := false; http_status := 403; statusText := "Forbidden";
                    body := BodyJson {| candidates := None;
                                        error := Some {| err_message := "API key not valid" |} |} |};
     store_fault := fun _ => None;
     time := fun n => n |}.

(** The sample questions as a response that ignores the schema may
    carry them: without [correctAnswer]. *)
Definition unkeyedQuestions : list Question :=
  map (fun q => {| question := question q; options := options q;
                   correctAnswer := Undefined |})
      sampleQuestions.

Definition unkeyedParser : string -> Parsed (list Question) :=
  parseOnly (questions_json unkeyedQuestions) unkeyedQuestions.

(** A world where every request is answered with the JSON text of
    [unkeyedQuestions]. *)
Definition unkeyedWorld : World :=
  {| net := fun _ => Responded (textResponse (questions_json unkeyedQuestions));
     store_fault := fun _ => None;
     time := fun n => n |}.

(** [sampleApp] in world [w], with the document of [m] in the store. *)
Definition storedApp (w : World) (m : Module) (index : Z) : App :=
  {| geminiApiKey := Some "key";
     firestoreReady := true;
     ui := ui (sampleApp (Some "key") (Some m) ∅ index);
     store := {[ id m := fields_of_module m ]};
     world := w;
     tick := 10;
     effects := [] |}.

(** * Proofs *)

(** Symbolic execution of a handler: evaluate the monad and the state
    accessors by need, then split on whatever the code branches on. *)
Ltac js_eval :=
  lazy beta iota zeta delta
    [exec bind ret throw try_catch finally read set emit interact put_store ask
     now fetch post json written setDoc getDoc parsed updateModuleInFirestore
     fst snd negb andb ok body prompt schema
     identifier String.eqb Ascii.eqb Bool.eqb
     geminiApiKey firestoreReady ui store world tick effects
     currentModule topic questions userAnswers score showCertificate userName
     loading errorMessage appPhase assessmentMetrics lastScoreDetails
     teacherPicks assignmentContent currentAssignmentSectionIndex
     assignmentResponses
     setCurrentModule setTopic setQuestions setUserAnswers setScore
     setShowCertificate setUserName setLoading setErrorMessage setAppPhase
     setAssessmentMetrics setLastScoreDetails setTeacherPicks
     setAssignmentContent setCurrentAssignmentSectionIndex
     setAssignmentResponses].

Ltac split_js :=
  match goal with
  | |- context [match ?x with _ => _ end] =>
      lazymatch x with
      | context [match _ with _ => _ end] => fail
      | _ => destruct x eqn:?
      end
  end.

Ltac js_run := js_eval; repeat (split_js; js_eval).

(** Name the components of a state so that accessors compute. *)
Ltac open_state s :=
  let u := fresh "u" in
  destruct s as [? ? u ? ? ? ?]; destruct u; cbn in * |-; subst.

(** ** Scoring *)

Lemma isCorrect_spec answers i q :
  isCorrect answers i q = true <-> recorded answers i = correctAnswer q.
Proof.
  unfold isCorrect, recorded.
  destruct (answers !! i) as [a|], (correctAnswer q) as [|c|];
    try (split; [discriminate|congruence]); [|split; reflexivity].
  rewrite String.eqb_eq. split; congruence.
Qed.

Lemma countCorrect_from answers qs : forall i c,
  countCorrect answers qs i c =
  c + length (filter (fun iq => recorded answers iq.1 = correctAnswer iq.2)
                     (imap (fun j q => (i + j, q)) qs)).
Proof.
  induction qs as [|q qs IH]; intros i c; cbn [countCorrect].
  - cbn. lia.
  - rewrite IH. cbn [imap]. rewrite filter_cons. cbn [fst snd].
    rewrite Nat.add_0_r.
    assert (E : imap ((fun j q0 => (i + j, q0)) ∘ S) qs
                = imap (fun j q0 => (S i + j, q0)) qs).
    { apply imap_ext. intros j x _. cbn. f_equal. lia. }
    rewrite E. clear E.
    destruct (isCorrect answers i q) eqn:Hc.
    + apply isCorrect_spec in Hc. rewrite decide_True by exact Hc. cbn. lia.
    + rewrite decide_False; [lia|]. intros Hn. apply isCorrect_spec in Hn. congruence.
Qed.

Lemma countCorrect_correct_answers answers qs :
  countCorrect answers qs 0 0 = correct_answers answers qs.
Proof. rewrite countCorrect_from. reflexivity. Qed.

Lemma correct_answers_le answers qs : correct_answers answers qs <= length qs.
Proof.
  unfold correct_answers. etransitivity; [apply length_filter|].
  rewrite length_imap. done.
Qed.

(** Without a recorded answer, a question counts as correct exactly when
    its [correctAnswer] is missing. *)
Lemma isCorrect_unanswered answers i q :
  answers !! i = None ->
  (isCorrect answers i q = true <-> correctAnswer q = Undefined).
Proof.
  intros H. unfold isCorrect, recorded. rewrite H.
  destruct (correctAnswer q); split; congruence.
Qed.

(** Questions that carry a [correctAnswer] and have no recorded answer
    earn nothing. *)
Lemma countCorrect_unanswered answers qs : forall i c,
  Forall (fun q => correctAnswer q <> Undefined) qs ->
  (forall j, i <= j < i + length qs -> answers !! j = None) ->
  countCorrect answers qs i c = c.
Proof.
  induction qs as [|q qs IH]; intros i c Hk H; cbn [countCorrect]; [done|].
  apply Forall_cons in Hk as [Hq Hk].
  unfold isCorrect, recorded. rewrite (H i) by (cbn; lia).
  destruct (correctAnswer q); [done| |];
    (apply IH; [exact Hk|]; intros j Hj; apply H; cbn; lia).
Qed.

(** Over such questions the count never exceeds the number of answered
    questions. *)
Lemma countCorrect_le_answered answers qs : forall i c,
  Forall (fun q => correctAnswer q <> Undefined) qs ->
  countCorrect answers qs i c
  <= c + length (filter (fun j => is_Some (answers !! j)) (seq i (length qs))).
Proof.
  induction qs as [|q qs IH]; intros i c Hk; cbn [countCorrect length seq]; [lia|].
  apply Forall_cons in Hk as [Hq Hk].
  rewrite filter_cons. specialize (IH (S i)).
  unfold isCorrect, recorded. destruct (answers !! i) as [a|] eqn:Ha.
  - rewrite decide_True by eauto. cbn [length].
    destruct (correctAnswer q) as [|k|]; [done| |].
    + destruct (String.eqb a k).
      * specialize (IH (S c) Hk). lia.
      * specialize (IH c Hk). lia.
    + specialize (IH c Hk). lia.
  - rewrite decide_False by (intros [x Hx]; discriminate).
    destruct (correctAnswer q); [done| |]; apply IH; exact Hk.
Qed.

(** ** Doubles

    A zero count divided by a positive length and scaled is exactly 0.
    The conversion of a length below 2^53 to a double is exact, so its
    image is a positive float. *)

Lemma digits2_pos_lower (p : positive) :
  (2 ^ (Z.pos (digits2_pos p) - 1) <= Z.pos p)%Z.
Proof.
  induction p as [p IH|p IH|]; cbn [digits2_pos].
  - rewrite Pos2Z.inj_succ.
    replace (Z.succ (Z.pos (digits2_pos p)) - 1)%Z with (Z.succ (Z.pos (digits2_pos p) - 1))%Z by lia.
    rewrite Z.pow_succ_r by lia. lia.
  - rewrite Pos2Z.inj_succ.
    replace (Z.succ (Z.pos (digits2_pos p)) - 1)%Z with (Z.succ (Z.pos (digits2_pos p) - 1))%Z by lia.
    rewrite Z.pow_succ_r by lia. lia.
  - cbn. lia.
Qed.

Lemma digits2_pos_iter_xO (k p : positive) :
  digits2_pos (Pos.iter xO p k) = (digits2_pos p + k)%positive.
Proof.
  induction k as [|k IH] using Pos.peano_ind.
  - cbn. lia.
  - rewrite Pos.iter_succ. cbn [digits2_pos]. rewrite IH. lia.
Qed.

Lemma round_aux_exact (m : positive) (e : Z) :
  Z.pos (digits2_pos m) = 53%Z -> (-52 <= e <= 0)%Z ->
  positive_float (binary_round_aux prec emax false (Z.pos m) e loc_Exact).
Proof.
  intros Hd He.
  assert (Hf : (fexp prec emax (Zdigits2 (Z.pos m) + e) - e = 0)%Z).
  { unfold fexp, emin, Zdigits2, prec, emax. rewrite Hd. lia. }
  unfold binary_round_aux, shr_fexp. rewrite Hf.
  cbn [shr shr_record_of_loc shr_m loc_of_shr_record round_nearest_even].
  rewrite Hf.
  cbn [shr shr_record_of_loc shr_m].
  destruct (e <=? emax - prec)%Z; exact I.
Qed.

Lemma normalize_positive (p : positive) :
  (Z.pos p < 2 ^ 53)%Z ->
  positive_float (binary_normalize prec emax (Z.pos p) 0 false).
Proof.
  intros Hp. cbn [binary_normalize]. unfold binary_round.
  pose proof (digits2_pos_lower p) as Hlow.
  assert (Hd : (Z.pos (digits2_pos p) <= 53)%Z).
  { destruct (Z_le_gt_dec (Z.pos (digits2_pos p)) 53) as [H|H]; [exact H|].
    exfalso.
    assert (2 ^ 53 <= 2 ^ (Z.pos (digits2_pos p) - 1))%Z by (apply Z.pow_le_mono_r; lia).
    lia. }
  assert (Hf : fexp prec emax (Z.pos (digits2_pos p) + 0) = (Z.pos (digits2_pos p) - 53)%Z).
  { unfold fexp, emin, prec, emax. lia. }
  rewrite Hf. unfold shl_align.
  destruct (Z.pos (digits2_pos p) - 53 - 0)%Z as [|d|d] eqn:Hs; try lia.
  - apply round_aux_exact; lia.
  - apply round_aux_exact; [|lia].
    rewrite digits2_pos_iter_xO. lia.
Qed.

Lemma number_positive (n : nat) :
  (0 < Z.of_nat n < 2 ^ 53)%Z -> positive_float (Prim2SF (number n)).
Proof.
  intros Hn. unfold number. rewrite of_uint63_spec.
  rewrite Uint63.of_Z_spec.
  rewrite Z.mod_small by (change Uint63.wB with (2 ^ 63)%Z; lia).
  destruct (Z.of_nat n) as [|p|p] eqn:E; try lia.
  apply normalize_positive. lia.
Qed.

Lemma zero_score (n : nat) :
  (0 < Z.of_nat n < 2 ^ 53)%Z ->
  (number 0 / number n * 100)%float = 0%float.
Proof.
  intros Hn. apply Prim2SF_inj.
  rewrite mul_spec, div_spec.
  pose proof (number_positive n Hn) as Hp.
  change (Prim2SF (number 0)) with (S754_zero false).
  destruct (Prim2SF (number n)) as [s|s| |s m e]; try destruct s; try contradiction;
    vm_compute; reflexivity.
Qed.

(** The score [submitTest] stores with [setScore]. *)
Lemma submitTest_score type s q qs :
  questions (ui s) = q :: qs ->
  score (ui (exec (submitTest type) s)) = calculateScore (userAnswers (ui s)) (q :: qs).
Proof.
  intros H. open_state s. unfold submitTest. js_run; reflexivity.
Qed.




(** ** What the scoring and reset handlers leave in [currentModule] *)

Lemma submitTest_quiz_module s m q qs :
  questions (ui s) = q :: qs ->
  currentModule (ui s) = Some m ->
  currentModule (ui (exec (submitTest Quiz) s))
  = Some (spread m [FQuizzes (quizzes m ++
                       [ {| q_score := calculateScore (userAnswers (ui s)) (q :: qs);
                            q_date := time (world s) (tick s) |} ]);
                    FLastUpdated (time (world s) (S (tick s)))]).
Proof.
  intros Hq Hm. open_state s. unfold submitTest. js_run; reflexivity.
Qed.

Lemma submitTest_final_module s m q qs :
  questions (ui s) = q :: qs ->
  currentModule (ui s) = Some m ->
  let sc := calculateScore (userAnswers (ui s)) (q :: qs) in
  currentModule (ui (exec (submitTest FinalTest) s))
  = Some (spread m [FFinalTestScore sc; FCertificateIssued (passes sc);
                    FStatus (if passes sc then completed else needs_revisit);
                    FLastUpdated (time (world s) (tick s))]).
Proof.
  intros Hq Hm. open_state s. unfold submitTest. js_run; reflexivity.
Qed.

Lemma resetModuleForRetry_module s m :
  currentModule (ui s) = Some m ->
  currentModule (ui (exec resetModuleForRetry s))
  = Some (spread m [FStatus started; FAssignments emptyAssignments; FQuizzes [];
                    FFinalTestScore 0%float; FCertificateIssued false;
                    FLastUpdated (time (world s) (tick s))]).
Proof.
  intros Hm. open_state s. unfold resetModuleForRetry. js_run; reflexivity.
Qed.

Lemma resetModuleForRetry_frame s m :
  currentModule (ui s) = Some m ->
  let s' := exec resetModuleForRetry s in
  teacherPicks (ui s') = teacherPicks (ui s)
  /\ assignmentContent (ui s') = assignmentContent (ui s)
  /\ (firestoreReady s = true ->
      effects s' = effects s ++
        [EvSetDoc (id m)
           (fields_of_module
              (spread m [FStatus started; FAssignments emptyAssignments; FQuizzes [];
                         FFinalTestScore 0%float; FCertificateIssued false;
                         FLastUpdated (time (world s) (tick s))])) true]).
Proof.
  intros Hm. open_state s. unfold resetModuleForRetry.
  js_run; repeat split; try reflexivity; discriminate.
Qed.

(** C6: resetting a module yields status 'started', assignments cleared,
    quizzes [], finalTestScore 0 and certificateIssued false, while the
    module's resources, teacherPicks and assignmentContent (and the
    [teacherPicks] and [assignmentContent] state variables) keep their
    values; the whole updated module is what is sent to the store. *)
Theorem C6_reset_frame (s : App) (m : Module) :
  currentModule (ui s) = Some m ->
  let s' := exec resetModuleForRetry s in
  exists m',
    currentModule (ui s') = Some m'
    /\ status m' = started
    /\ assignments m' = emptyAssignments
    /\ quizzes m' = []
    /\ finalTestScore m' = 0%float
    /\ certificateIssued m' = false
    /\ resources m' = resources m
    /\ m_teacherPicks m' = m_teacherPicks m
    /\ m_assignmentContent m' = m_assignmentContent m
    /\ id m' = id m /\ name m' = name m /\ createdAt m' = createdAt m
    /\ teacherPicks (ui s') = teacherPicks (ui s)
    /\ assignmentContent (ui s') = assignmentContent (ui s)
    /\ (firestoreReady s = true ->
        effects s' = effects s ++ [EvSetDoc (id m) (fields_of_module m') true]).
Proof.
  intros Hm s'. subst s'.
  destruct (resetModuleForRetry_frame s m Hm) as (Htp & Hac & Hw).
  eexists. split; [apply resetModuleForRetry_module; exact Hm|].
  cbn. repeat split; try reflexivity; assumption.
Qed.

Lemma C6_reset_frame_witness :
  let s := sampleApp None (Some (sampleModule needs_revisit false)) ∅ 2%Z in
  exists m',
    currentModule (ui (exec resetModuleForRetry s)) = Some m'
    /\ status m' = started
    /\ quizzes m' = []
    /\ resources m' = ["notes.pdf"]
    /\ m_assignmentContent m' = Some sampleAssignment.
Proof.
  destruct (C6_reset_frame
              (sampleApp None (Some (sampleModule needs_revisit false)) ∅ 2%Z)
              (sampleModule needs_revisit false) eq_refl)
    as (m' & H1 & H2 & _ & H4 & _ & _ & H7 & _ & H9 & _).
  exists m'. repeat split; assumption.
Defined.

(** C7: a quiz submission appends exactly one record [{score, date}] with
    the computed score to [quizzes] and leaves status, finalTestScore and
    certificateIssued as they were; a final-test submission overwrites
    finalTestScore with the computed score and leaves [quizzes] as it was. *)
Theorem C7_quiz_appends_final_overwrites (s : App) (m : Module) :
  questions (ui s) <> [] ->
  currentModule (ui s) = Some m ->
  (exists m' date,
      currentModule (ui (exec (submitTest Quiz) s)) = Some m'
      /\ quizzes m' = quizzes m ++
           [ {| q_score := score (ui (exec (submitTest Quiz) s)); q_date := date |} ]
      /\ status m' = status m
      /\ finalTestScore m' = finalTestScore m
      /\ certificateIssued m' = certificateIssued m)
  /\ (exists m',
      currentModule (ui (exec (submitTest FinalTest) s)) = Some m'
      /\ finalTestScore m' = score (ui (exec (submitTest FinalTest) s))
      /\ quizzes m' = quizzes m).
Proof.
  intros Hne Hm.
  destruct (questions (ui s)) as [|q qs] eqn:Hq; [done|].
  rewrite !(submitTest_score _ s q qs Hq).
  split.
  - eexists _, _. split; [apply (submitTest_quiz_module s m q qs Hq Hm)|].
    cbn. repeat split; reflexivity.
  - eexists. split; [apply (submitTest_final_module s m q qs Hq Hm)|].
    cbn. split; reflexivity.
Qed.

Lemma C7_quiz_appends_final_overwrites_witness :
  let s := sampleApp None (Some (sampleModule assignment_done false)) ∅ 0%Z in
  exists m' date,
    currentModule (ui (exec (submitTest Quiz) s)) = Some m'
    /\ quizzes m' = quizzes (sampleModule assignment_done false) ++
         [ {| q_score := score (ui (exec (submitTest Quiz) s)); q_date := date |} ]
    /\ status m' = assignment_done.
Proof.
  destruct (C7_quiz_appends_final_overwrites
              (sampleApp None (Some (sampleModule assignment_done false)) ∅ 0%Z)
              (sampleModule assignment_done false))
    as [(m' & date & H1 & H2 & H3 & _) _]; [discriminate|reflexivity|].
  exists m', date. repeat split; assumption.
Defined.

(** C10 (amended): a question without a recorded answer counts as
    correct exactly when its [correctAnswer] is missing, so over questions
    that carry a [correctAnswer] no unanswered question is counted and the
    count is at most the number of answered questions; submitting a
    non-empty test of such questions (an array, so of length below 2^32)
    with no answer recorded scores exactly 0, and the quiz record is still
    appended, the final-test result still written (score 0, no
    certificate, needs_revisit). *)
Theorem C10_unanswered_counts_as_incorrect (s : App) :
  questions (ui s) <> [] ->
  (Z.of_nat (length (questions (ui s))) < 2 ^ 32)%Z ->
  Forall (fun q => correctAnswer q <> Undefined) (questions (ui s)) ->
  (forall i, i < length (questions (ui s)) -> userAnswers (ui s) !! i = None) ->
  (forall (answers : gmap nat string) i q,
      answers !! i = None ->
      (isCorrect answers i q = true <-> correctAnswer q = Undefined))
  /\ (forall (answers : gmap nat string) qs,
       Forall (fun q => correctAnswer q <> Undefined) qs ->
       countCorrect answers qs 0 0 <= answered answers qs)
  /\ (forall type, score (ui (exec (submitTest type) s)) = 0%float)
  /\ (forall m, currentModule (ui s) = Some m ->
      (exists m' date,
          currentModule (ui (exec (submitTest Quiz) s)) = Some m'
          /\ quizzes m' = quizzes m ++ [ {| q_score := 0%float; q_date := date |} ])
      /\ (exists m',
          currentModule (ui (exec (submitTest FinalTest) s)) = Some m'
          /\ finalTestScore m' = 0%float
          /\ certificateIssued m' = false
          /\ status m' = needs_revisit)).
Proof.
  intros Hne Hlen Hkeys Hnone.
  destruct (questions (ui s)) as [|q qs] eqn:Hq; [done|].
  assert (Hz : calculateScore (userAnswers (ui s)) (q :: qs) = 0%float).
  { unfold calculateScore. rewrite countCorrect_unanswered.
    - apply zero_score. cbn [length] in *. lia.
    - exact Hkeys.
    - intros j Hj. apply Hnone. lia. }
  split; [|split; [|split]].
  - intros answers i q' H. apply isCorrect_unanswered, H.
  - intros answers qs' Hk. apply (countCorrect_le_answered answers qs' 0 0 Hk).
  - intros type. rewrite (submitTest_score type s q qs Hq). exact Hz.
  - intros m Hm. split.
    + pose proof (submitTest_quiz_module s m q qs Hq Hm) as H. rewrite Hz in H.
      eexists _, _. split; [exact H|]. reflexivity.
    + pose proof (submitTest_final_module s m q qs Hq Hm) as H. cbv zeta in H.
      rewrite Hz in H.
      eexists. split; [exact H|]. repeat split; reflexivity.
Qed.

Lemma C10_unanswered_counts_as_incorrect_witness :
  let s := sampleApp None (Some (sampleModule assignment_done false)) ∅ 0%Z in
  score (ui (exec (submitTest FinalTest) s)) = 0%float
  /\ exists m',
       currentModule (ui (exec (submitTest FinalTest) s)) = Some m'
       /\ status m' = needs_revisit.
Proof.
  destruct (C10_unanswered_counts_as_incorrect
              (sampleApp None (Some (sampleModule assignment_done false)) ∅ 0%Z))
    as (_ & _ & Hs & Hm).
  - discriminate.
  - vm_compute. reflexivity.
  - repeat constructor; discriminate.
  - intros i _. apply lookup_empty.
  - split; [apply Hs|].
    destruct (Hm (sampleModule assignment_done false) eq_refl)
      as (_ & (m' & H1 & _ & _ & H4)).
    exists m'. split; assumption.
Defined.

(** C10 (counterexample): the service answers the request for a final
    test with five questions without [correctAnswer]; the learner records
    no answer and submits: every question is counted as correct, the
    score is 100 and the module is completed with a certificate. *)
Lemma C10_counterexample :
  let s := exec (generateTest unkeyedParser FinalTest)
             (storedApp unkeyedWorld (sampleModule assignment_done false) 0%Z) in
  let s' := exec (submitTest FinalTest) s in
  length (questions (ui s)) = 5
  /\ answered (userAnswers (ui s)) (questions (ui s)) = 0
  /\ countCorrect (userAnswers (ui s)) (questions (ui s)) 0 0 = 5
  /\ score (ui s') = 100%float
  /\ exists m', currentModule (ui s') = Some m'
                /\ certificateIssued m' = true /\ status m' = completed.
Proof.
  split; [vm_compute; reflexivity|].
  split; [vm_compute; reflexivity|].
  split; [vm_compute; reflexivity|].
  split; [vm_compute; reflexivity|].
  eexists. split; [vm_compute; reflexivity|]. split; reflexivity.
Qed.

(** ** Assignment sections *)

Lemma goToNextAssignmentSection_advance s a :
  assignmentContent (ui s) = Some a ->
  (currentAssignmentSectionIndex (ui s) < Z.of_nat (length (sections a)) - 1)%Z ->
  exec goToNextAssignmentSection s
  = at_section (currentAssignmentSectionIndex (ui s) + 1) s.
Proof.
  intros Ha Hlt. apply Z.ltb_lt in Hlt.
  open_state s. unfold goToNextAssignmentSection, at_section. js_eval.
  rewrite Hlt. reflexivity.
Qed.

Lemma at_section_ui i s :
  currentAssignmentSectionIndex (ui (at_section i s)) = i
  /\ currentModule (ui (at_section i s)) = currentModule (ui s)
  /\ assignmentContent (ui (at_section i s)) = assignmentContent (ui s)
  /\ appPhase (ui (at_section i s)) = appPhase (ui s)
  /\ effects (at_section i s) = effects s.
Proof. destruct s as [? ? u ? ? ? ?]; destruct u. repeat split. Qed.

Lemma at_section_twice i j s : at_section j (at_section i s) = at_section j s.
Proof. destruct s as [? ? u ? ? ? ?]; destruct u. reflexivity. Qed.

Lemma goToNextAssignmentSection_iter (k : nat) : forall s a,
  assignmentContent (ui s) = Some a ->
  (currentAssignmentSectionIndex (ui s) + Z.of_nat k
   <= Z.of_nat (length (sections a)) - 1)%Z ->
  Nat.iter k (exec goToNextAssignmentSection) s
  = match k with
    | 0 => s
    | S _ => at_section (currentAssignmentSectionIndex (ui s) + Z.of_nat k) s
    end.
Proof.
  induction k as [|k IH]; intros s a Ha Hk; [reflexivity|].
  rewrite Nat.iter_succ. rewrite (IH s a Ha) by lia.
  destruct k as [|k].
  - rewrite (goToNextAssignmentSection_advance s a Ha) by lia. reflexivity.
  - destruct (at_section_ui (currentAssignmentSectionIndex (ui s) + Z.of_nat (S k)) s)
      as (Hi & _ & Hac & _).
    rewrite (goToNextAssignmentSection_advance _ a).
    + rewrite Hi, at_section_twice. f_equal. lia.
    + rewrite Hac. exact Ha.
    + rewrite Hi. lia.
Qed.

Lemma goToNextAssignmentSection_complete s a m :
  assignmentContent (ui s) = Some a ->
  currentModule (ui s) = Some m ->
  (Z.of_nat (length (sections a)) - 1 <= currentAssignmentSectionIndex (ui s))%Z ->
  let s' := exec goToNextAssignmentSection s in
  currentModule (ui s')
  = Some (spread m [FAssignments (markCompleted (assignments m));
                    FStatus assignment_done;
                    FLastUpdated (time (world s) (tick s))])
  /\ appPhase (ui s') = quiz
  /\ currentAssignmentSectionIndex (ui s') = currentAssignmentSectionIndex (ui s).
Proof.
  intros Ha Hm Hge. apply Z.ltb_ge in Hge.
  open_state s. unfold goToNextAssignmentSection. js_eval.
  rewrite Hge. js_run; repeat split; reflexivity.
Qed.

(** C8: within the assignment the section index stays in
    [0, sectionCount-1] under 'next' and 'previous'; 'previous' changes
    nothing at section 0 and otherwise decrements; from section 0,
    sectionCount-1 invocations of 'next' reach the last section with the
    module, the phase and the effects untouched, and one more sets
    assignments.completed = true, status = 'assignment_done' and the
    phase to 'quiz'. *)
Theorem C8_section_navigation (s : App) (a : Assignment) (m : Module) :
  assignmentContent (ui s) = Some a ->
  currentModule (ui s) = Some m ->
  let n := Z.of_nat (length (sections a)) in
  let index := fun s => currentAssignmentSectionIndex (ui s) in
  ((0 <= index s <= n - 1)%Z ->
     (0 <= index (exec goToNextAssignmentSection s) <= n - 1)%Z
     /\ (0 <= index (exec goToPreviousAssignmentSection s) <= n - 1)%Z)
  /\ (index s = 0%Z -> exec goToPreviousAssignmentSection s = s)
  /\ ((0 < index s)%Z ->
        exec goToPreviousAssignmentSection s = at_section (index s - 1) s)
  /\ (index s = 0%Z -> (1 <= n)%Z ->
      let s1 := Nat.iter (Z.to_nat (n - 1)) (exec goToNextAssignmentSection) s in
      index s1 = (n - 1)%Z
      /\ currentModule (ui s1) = Some m
      /\ appPhase (ui s1) = appPhase (ui s)
      /\ effects s1 = effects s
      /\ exists m',
           currentModule (ui (exec goToNextAssignmentSection s1)) = Some m'
           /\ a_completed (assignments m') = Some true
           /\ status m' = assignment_done
           /\ appPhase (ui (exec goToNextAssignmentSection s1)) = quiz).
Proof.
  intros Ha Hm n index. subst n index. cbv beta.
  assert (Hprev0 : currentAssignmentSectionIndex (ui s) = 0%Z ->
                   exec goToPreviousAssignmentSection s = s).
  { intros H0. open_state s. reflexivity. }
  assert (Hprev : (0 < currentAssignmentSectionIndex (ui s))%Z ->
                  exec goToPreviousAssignmentSection s
                  = at_section (currentAssignmentSectionIndex (ui s) - 1) s).
  { intros Hpos. apply Z.ltb_lt in Hpos. open_state s.
    unfold goToPreviousAssignmentSection, at_section. js_eval.
    rewrite Hpos. reflexivity. }
  split; [|split; [exact Hprev0|split; [exact Hprev|]]].
  - intros Hr. split.
    + destruct (Z_lt_ge_dec (currentAssignmentSectionIndex (ui s))
                  (Z.of_nat (length (sections a)) - 1)) as [Hlt|Hge].
      * rewrite (goToNextAssignmentSection_advance s a Ha Hlt).
        destruct (at_section_ui (currentAssignmentSectionIndex (ui s) + 1) s) as (-> & _).
        lia.
      * destruct (goToNextAssignmentSection_complete s a m Ha Hm) as (_ & _ & Hi);
          [lia|]. rewrite Hi. exact Hr.
    + destruct (Z_lt_ge_dec 0 (currentAssignmentSectionIndex (ui s))) as [Hpos|Hz].
      * rewrite (Hprev Hpos).
        destruct (at_section_ui (currentAssignmentSectionIndex (ui s) - 1) s) as (-> & _).
        lia.
      * rewrite Hprev0 by lia. exact Hr.
  - intros H0 Hn.
    rewrite (goToNextAssignmentSection_iter _ s a Ha) by lia.
    assert (Hs1 : exists s1,
               s1 = match Z.to_nat (Z.of_nat (length (sections a)) - 1) with
                    | 0 => s
                    | S _ => at_section (currentAssignmentSectionIndex (ui s)
                               + Z.of_nat (Z.to_nat (Z.of_nat (length (sections a)) - 1))) s
                    end
               /\ currentAssignmentSectionIndex (ui s1)
                  = (Z.of_nat (length (sections a)) - 1)%Z
               /\ currentModule (ui s1) = Some m
               /\ assignmentContent (ui s1) = Some a
               /\ appPhase (ui s1) = appPhase (ui s)
               /\ effects s1 = effects s).
    { eexists. split; [reflexivity|].
      destruct (Z.to_nat (Z.of_nat (length (sections a)) - 1)) eqn:Hk.
      - repeat split; try assumption; try reflexivity. lia.
      - destruct (at_section_ui (currentAssignmentSectionIndex (ui s) + Z.of_nat (S n)) s)
          as (Hi & Hcm & Hac & Hph & Hef).
        rewrite Hi, Hcm, Hac, Hph, Hef.
        repeat split; try assumption; try reflexivity. lia. }
    destruct Hs1 as (s1 & <- & Hi & Hm1 & Ha1 & Hp1 & He1).
    repeat split; try assumption.
    destruct (goToNextAssignmentSection_complete s1 a m Ha1 Hm1) as (Hc & Hq & _);
      [lia|].
    eexists. split; [exact Hc|]. cbn. repeat split; try reflexivity. exact Hq.
Qed.

Lemma C8_section_navigation_witness :
  let s := sampleApp None (Some (sampleModule started false)) ∅ 0%Z in
  let s1 := Nat.iter 2 (exec goToNextAssignmentSection) s in
  currentAssignmentSectionIndex (ui s1) = 2%Z
  /\ currentModule (ui s1) = Some (sampleModule started false)
  /\ exists m',
       currentModule (ui (exec goToNextAssignmentSection s1)) = Some m'
       /\ a_completed (assignments m') = Some true
       /\ status m' = assignment_done
       /\ appPhase (ui (exec goToNextAssignmentSection s1)) = quiz.
Proof.
  destruct (C8_section_navigation
              (sampleApp None (Some (sampleModule started false)) ∅ 0%Z)
              sampleAssignment (sampleModule started false) eq_refl eq_refl)
    as (_ & _ & _ & H).
  destruct (H eq_refl) as (H1 & H2 & _ & _ & H5); [vm_compute; discriminate|].
  repeat split; assumption.
Defined.

(** ** Content generation *)

Section ContentGeneration.

Variable parsePicks : string -> Parsed (list Pick).
Variable parseAssignment : string -> Parsed Assignment.
Variable parseQuestions : string -> Parsed (list Question).

(** The placeholder assignment conforms to the assignment schema. *)
Lemma fallbackAssignment_schema_valid moduleName :
  schema_valid (fallbackAssignment moduleName) = true.
Proof. reflexivity. Qed.

(** The assignment half of [generateModuleContent] stops at the
    evaluation of [payload], before any request. *)
Lemma generateAssignment_throws key moduleName moduleId resourcePayload s :
  generateAssignment parseAssignment key moduleName moduleId resourcePayload s
  = (Throw (ReferenceError "payload is not defined"), s).
Proof. reflexivity. Qed.

Ltac gmc_run :=
  unfold generateModuleContent, generateTeacherPicks; js_eval;
  repeat (split_js; js_eval; rewrite ?generateAssignment_throws; js_eval).

(** With a key, [generateModuleContent] returns normally, leaves
    [assignmentContent] null and [teacherPicks] empty, and touches neither
    the current module nor the configuration. *)
Lemma generateModuleContent_summary s moduleName moduleId key :
  present_key (geminiApiKey s) = Some key ->
  let r := generateModuleContent parsePicks parseAssignment moduleName moduleId s in
  let s' := snd r in
  fst r = Ret tt
  /\ assignmentContent (ui s') = None
  /\ teacherPicks (ui s') = []
  /\ currentModule (ui s') = currentModule (ui s)
  /\ firestoreReady s' = firestoreReady s
  /\ geminiApiKey s' = geminiApiKey s
  /\ world s' = world s.
Proof.
  intros Hk. destruct s as [k r u st w t ef]; destruct u; cbn in Hk |-.
  unfold generateModuleContent. js_eval. rewrite Hk.
  gmc_run; repeat split.
Qed.

(** Its only possible write is the merge of [teacherPicks]. *)
Lemma generateModuleContent_store s moduleName moduleId key :
  present_key (geminiApiKey s) = Some key ->
  let s' := exec (generateModuleContent parsePicks parseAssignment moduleName moduleId) s in
  store s' = store s
  \/ exists picks,
       store s' = <[moduleId := default [] (store s !! moduleId) ++ [FTeacherPicks picks]]>
                    (store s).
Proof.
  intros Hk. destruct s as [k r u st w t ef]; destruct u; cbn in Hk |-.
  unfold generateModuleContent. js_eval. rewrite Hk.
  gmc_run; first [left; reflexivity | right; eexists; reflexivity].
Qed.

(** It issues no request for the assignment and no write of
    [assignmentContent]. *)
Lemma generateModuleContent_effects s moduleName moduleId key :
  present_key (geminiApiKey s) = Some key ->
  let s' := exec (generateModuleContent parsePicks parseAssignment moduleName moduleId) s in
  exists new,
    effects s' = effects s ++ new
    /\ existsb (fetches_schema AssignmentSchema) new = false
    /\ existsb mentions_assignmentContent new = false.
Proof.
  intros Hk. destruct s as [k r u st w t ef]; destruct u; cbn in Hk |-.
  unfold generateModuleContent. js_eval. rewrite Hk.
  gmc_run;
    first [ exists []; rewrite app_nil_r; repeat split; reflexivity
          | rewrite <- ?app_assoc; eexists; split; [reflexivity|]; split; reflexivity ].
Qed.

(** C3 (amended): the resource-list request is issued first.  When it
    fails in transport or its body is not JSON, the operation ends there:
    that one request, no write, local picks empty and assignment null.
    When it yields a body, the picks read from it (parsed or placeholder)
    are persisted at once by a merge write of the single key
    [teacherPicks], before anything else is requested or written, and a
    stored document then carries exactly these picks. *)
Theorem C3_resource_first_then_own_write (s : App) (moduleName moduleId key : string) :
  present_key (geminiApiKey s) = Some key ->
  firestoreReady s = true ->
  let s' := exec (generateModuleContent parsePicks parseAssignment moduleName moduleId) s in
  let request := EvFetch {| req_key := key; req_prompt := resourcePrompt moduleName;
                            req_schema := ResourceListSchema |} in
  match net (world s) (tick s) with
  | Responded {| body := BodyJson g |} =>
      (exists rest,
          effects s' = effects s ++
            [request; EvSetDoc moduleId [FTeacherPicks (picks_of parsePicks g)] true] ++ rest)
      /\ (store_fault (world s) (S (tick s)) = None ->
          exists d, store s' !! moduleId = Some d
                    /\ doc_get in_teacherPicks d = Some (picks_of parsePicks g))
  | _ =>
      effects s' = effects s ++ [request]
      /\ store s' = store s
      /\ teacherPicks (ui s') = []
      /\ assignmentContent (ui s') = None
  end.
Proof.
  intros Hk Hr. destruct s as [k r u st w t ef]; destruct u; cbn in Hk, Hr |-.
  subst r. unfold generateModuleContent. js_eval. rewrite Hk.
  unfold generateTeacherPicks. js_eval.
  destruct (net w t) as [msg|[o c tx [msg|g]]]; js_eval; try (repeat split; reflexivity).
  unfold picks_of.
  repeat (split_js; js_eval; rewrite ?generateAssignment_throws; js_eval).
  all: split;
    [ exists []; rewrite <- app_assoc; reflexivity
    | intros Hf;
      first [ discriminate
            | eexists; split; [apply lookup_insert_eq|];
              unfold doc_get; rewrite fold_left_app; reflexivity ] ].
Qed.

(** C9 (amended): without a credential, [generateModuleContent] ends at
    once with the configuration error, and so does [generateTest] when a
    module is selected; with none selected [generateTest] ends with the
    select-a-module message instead.  No request is issued and the store
    is not touched in any of these cases. *)
Theorem C9_missing_key_aborts (s : App) (moduleName moduleId : string) (type : TestType) :
  present_key (geminiApiKey s) = None ->
  (let s' := exec (generateModuleContent parsePicks parseAssignment moduleName moduleId) s in
   errorMessage (ui s') = apiKeyMissing
   /\ loading (ui s') = false
   /\ effects s' = effects s /\ store s' = store s /\ tick s' = tick s)
  /\ (let s' := exec (generateTest parseQuestions type) s in
      errorMessage (ui s')
      = match currentModule (ui s) with
        | Some _ => apiKeyMissing
        | None => "Please select or create a module first."
        end
      /\ questions (ui s') = questions (ui s)
      /\ effects s' = effects s /\ store s' = store s /\ tick s' = tick s).
Proof.
  intros Hk. destruct s as [k r u st w t ef]; destruct u; cbn in Hk |-.
  split.
  - unfold generateModuleContent. js_eval. rewrite Hk. repeat split.
  - unfold generateTest. js_eval. rewrite Hk.
    destruct currentModule0; repeat split.
Qed.

End ContentGeneration.

(** ** Module creation *)

Section Lifecycle.

Variable parsePicks : string -> Parsed (list Pick).
Variable parseAssignment : string -> Parsed Assignment.
Variable parseQuestions : string -> Parsed (list Question).

(** The document read back by [createNewModule] is the one it wrote,
    possibly extended by the picks: it carries every key of a module. *)
Lemma module_of_new_doc moduleId t created updated extra :
  (extra = [] \/ exists picks, extra = [FTeacherPicks picks]) ->
  exists m, module_of_doc moduleId (newModuleData t created updated ++ extra) = Some m
            /\ fresh m.
Proof.
  intros [->|[picks ->]]; eexists; (split; [reflexivity|split; reflexivity]).
Qed.

(** [createNewModule] either leaves [currentModule] alone (a guard or the
    first write failed) or installs a fresh module. *)
Lemma createNewModule_module s :
  let s' := exec (createNewModule parsePicks parseAssignment) s in
  currentModule (ui s') = currentModule (ui s)
  \/ exists m', currentModule (ui s') = Some m' /\ fresh m'.
Proof.
  destruct s as [k r u st w t ef]; destruct u.
  unfold createNewModule. js_eval.
  destruct (is_blank topic0); [left; reflexivity|].
  destruct r; js_eval; [|left; reflexivity].
  destruct (present_key k) as [key|] eqn:Hk; js_eval; [|left; reflexivity].
  destruct (store_fault w (S (S (S t)))) eqn:Hf; js_eval; [left; reflexivity|].
  match goal with |- context [generateModuleContent ?a ?b ?c ?d ?x] =>
    pose proof (generateModuleContent_summary a b x c d key Hk) as Hsum;
    pose proof (generateModuleContent_store a b x c d key Hk) as Hst;
    destruct (generateModuleContent a b c d x) as [o s2] eqn:E
  end.
  cbn [fst snd] in Hsum. unfold exec in Hst. rewrite E in Hst. cbn [fst snd] in Hst.
  destruct Hsum as (-> & _ & _ & Hcm & Hr & _ & Hw).
  destruct s2 as [k2 r2 u2 st2 w2 t2 ef2]; destruct u2.
  cbn in Hcm, Hr, Hw, Hst. subst.
  js_eval.
  destruct (store_fault w t2); js_eval.
  { right. eexists. split; [reflexivity|]. split; reflexivity. }
  destruct Hst as [->|[picks ->]]; rewrite !lookup_insert_eq; cbn;
    right; eexists; (split; [reflexivity|]); split; reflexivity.
Qed.

(** ** The status written by each operation *)

(** Operations that leave [currentModule] as it is. *)
Lemma generateTest_module type s :
  currentModule (ui (exec (generateTest parseQuestions type) s)) = currentModule (ui s).
Proof.
  destruct s as [k r u st w t ef]; destruct u.
  unfold generateTest. js_run; reflexivity.
Qed.

Lemma submitTest_module_cases type s :
  let s' := exec (submitTest type) s in
  currentModule (ui s') = currentModule (ui s)
  \/ exists m q qs,
       questions (ui s) = q :: qs /\ currentModule (ui s) = Some m.
Proof.
  destruct (questions (ui s)) as [|q qs] eqn:Hq.
  - left. open_state s. reflexivity.
  - destruct (currentModule (ui s)) as [m|] eqn:Hm.
    + right. eauto.
    + left. open_state s. reflexivity.
Qed.

Lemma assignment_completion_module (op : Op) s m :
  op = OpGoToNextAssignmentSection \/ op = OpSubmitAssignment ->
  currentModule (ui s) = Some m ->
  let s' := exec (handler parsePicks parseAssignment parseQuestions op) s in
  currentModule (ui s') = Some m
  \/ exists a t,
       currentModule (ui s')
       = Some (spread m [FAssignments a; FStatus assignment_done; FLastUpdated t]).
Proof.
  intros [->| ->] Hm; open_state s; cbn [handler].
  - unfold goToNextAssignmentSection. js_run;
      first [left; reflexivity | right; eexists _, _; reflexivity].
  - unfold submitAssignment. js_run;
      first [left; reflexivity | right; eexists _, _; reflexivity].
Qed.

Lemma quiet_ops_module (op : Op) s :
  match op with
  | OpSetTopic _ | OpHandleAssignmentResponseChange _ _ _
  | OpGoToPreviousAssignmentSection | OpHandleAnswerChange _ _ => True
  | _ => False
  end ->
  currentModule (ui (exec (handler parsePicks parseAssignment parseQuestions op) s))
  = currentModule (ui s).
Proof.
  destruct s as [k r u st w t ef]; destruct u.
  destruct op; try contradiction; intros _; cbn [handler].
  - reflexivity.
  - reflexivity.
  - unfold goToPreviousAssignmentSection. js_run; reflexivity.
  - reflexivity.
Qed.

Abbreviation handle := (handler parsePicks parseAssignment parseQuestions).

(** One operation of a history keeps the certificate invariant. *)
Lemma lifecycle_op_module_ok (op : Op) (s : App) :
  lifecycle_op op s -> module_ok s -> module_ok (exec (handle op) s).
Proof.
  intros Hop Hok m' Hm'.
  assert (Hsame : currentModule (ui (exec (handle op) s)) = currentModule (ui s) ->
                  certificate_invariant m').
  { intros E. apply Hok. congruence. }
  destruct op; cbn [lifecycle_op] in Hop;
    try (apply Hsame; apply (quiet_ops_module _ s); exact I).
  - (* createNewModule *)
    destruct (createNewModule_module s) as [E|(m1 & E & Hst & Hc)]; [auto|].
    cbn [handler] in Hm'. rewrite E in Hm'. injection Hm' as <-.
    unfold certificate_invariant. rewrite Hst, Hc. split; discriminate.
  - contradiction.
  - (* goToNextAssignmentSection *)
    destruct (currentModule (ui s)) as [m|] eqn:Hm.
    + destruct (assignment_completion_module OpGoToNextAssignmentSection s m) as [E|(a & t & E)];
        [auto|exact Hm|apply Hsame; congruence|].
      rewrite E in Hm'. injection Hm' as <-.
      pose proof (Hok m Hm) as Hinv. pose proof (Hop m eq_refl) as Hnc.
      unfold certificate_invariant in *. cbn. split; [|discriminate].
      intros Hc. apply Hinv in Hc. contradiction.
    + apply Hsame. open_state s. cbn [handler].
      unfold goToNextAssignmentSection. js_run; reflexivity.
  - (* submitAssignment *)
    destruct (currentModule (ui s)) as [m|] eqn:Hm.
    + destruct (assignment_completion_module OpSubmitAssignment s m) as [E|(a & t & E)];
        [auto|exact Hm|apply Hsame; congruence|].
      rewrite E in Hm'. injection Hm' as <-.
      pose proof (Hok m Hm) as Hinv. pose proof (Hop m eq_refl) as Hnc.
      unfold certificate_invariant in *. cbn. split; [|discriminate].
      intros Hc. apply Hinv in Hc. contradiction.
    + apply Hsame. open_state s. reflexivity.
  - (* generateTest *)
    apply Hsame. apply generateTest_module.
  - (* submitTest *)
    destruct (submitTest_module_cases type s) as [E|(m & q & qs & Hq & Hm)]; [auto|].
    cbn [handler] in Hm'. destruct type.
    + rewrite (submitTest_quiz_module s m q qs Hq Hm) in Hm'. injection Hm' as <-.
      exact (Hok m Hm).
    + rewrite (submitTest_final_module s m q qs Hq Hm) in Hm'. injection Hm' as <-.
      unfold certificate_invariant, spread.
      cbn [fold_left set_field certificateIssued status].
      destruct (passes _); split; congruence.
  - (* resetModuleForRetry *)
    destruct (currentModule (ui s)) as [m|] eqn:Hm.
    + cbn [handler] in Hm'. rewrite (resetModuleForRetry_module s m Hm) in Hm'.
      injection Hm' as <-. unfold certificate_invariant. cbn. split; discriminate.
    + apply Hsame. open_state s. reflexivity.
Qed.

(** Every operation keeps a certificate on a completed module:
    [completed] is written together with the certificate only, and what
    removes the certificate also changes the status. *)
Lemma any_op_completed_certified (op : Op) (s : App) :
  op <> OpAddResource ->
  completed_certified s -> completed_certified (exec (handle op) s).
Proof.
  intros Hop Hok m' Hm'.
  assert (Hsame : currentModule (ui (exec (handle op) s)) = currentModule (ui s) ->
                  status m' = completed -> certificateIssued m' = true).
  { intros E. apply Hok. congruence. }
  destruct op; try (apply Hsame; apply (quiet_ops_module _ s); exact I).
  - (* createNewModule *)
    destruct (createNewModule_module s) as [E|(m1 & E & Hst & Hc)]; [auto|].
    cbn [handler] in Hm'. rewrite E in Hm'. injection Hm' as <-.
    rewrite Hst. discriminate.
  - contradiction.
  - (* goToNextAssignmentSection *)
    destruct (currentModule (ui s)) as [m|] eqn:Hm.
    + destruct (assignment_completion_module OpGoToNextAssignmentSection s m) as [E|(a & t & E)];
        [auto|exact Hm|apply Hsame; congruence|].
      rewrite E in Hm'. injection Hm' as <-. cbn. discriminate.
    + apply Hsame. open_state s. cbn [handler].
      unfold goToNextAssignmentSection. js_run; reflexivity.
  - (* submitAssignment *)
    destruct (currentModule (ui s)) as [m|] eqn:Hm.
    + destruct (assignment_completion_module OpSubmitAssignment s m) as [E|(a & t & E)];
        [auto|exact Hm|apply Hsame; congruence|].
      rewrite E in Hm'. injection Hm' as <-. cbn. discriminate.
    + apply Hsame. open_state s. reflexivity.
  - (* generateTest *)
    apply Hsame. apply generateTest_module.
  - (* submitTest *)
    destruct (submitTest_module_cases type s) as [E|(m & q & qs & Hq & Hm)]; [auto|].
    cbn [handler] in Hm'. destruct type.
    + rewrite (submitTest_quiz_module s m q qs Hq Hm) in Hm'. injection Hm' as <-.
      exact (Hok m Hm).
    + rewrite (submitTest_final_module s m q qs Hq Hm) in Hm'. injection Hm' as <-.
      unfold spread. cbn [fold_left set_field certificateIssued status].
      destruct (passes _); congruence.
  - (* resetModuleForRetry *)
    destruct (currentModule (ui s)) as [m|] eqn:Hm.
    + cbn [handler] in Hm'. rewrite (resetModuleForRetry_module s m Hm) in Hm'.
      injection Hm' as <-. cbn. discriminate.
    + apply Hsame. open_state s. reflexivity.
Qed.

Lemma run_completed_certified (ops : list Op) : forall s,
  OpAddResource ∉ ops ->
  completed_certified s ->
  completed_certified (run parsePicks parseAssignment parseQuestions ops s).
Proof.
  induction ops as [|op ops IH]; intros s Hno Hs; [exact Hs|].
  apply not_elem_of_cons in Hno as [Hop Hno].
  cbn [run fold_left]. apply IH; [exact Hno|].
  apply any_op_completed_certified; [congruence | exact Hs].
Qed.

(** C1 (amended): along any history of operations in which assignment
    completion is not applied to a completed module (module creation,
    quiz and final-test submission, reset, test generation, answering,
    navigation), the current module satisfies certificateIssued = true
    <-> status = completed; along any sequence of operations at all
    (other than [addResource]) a completed module holds a certificate;
    and a final-test submission sets certificateIssued = true exactly
    when the computed score is >= 80, with status completed exactly
    then. *)
Theorem C1_certificate_iff_completed (s0 : App) :
  module_ok s0 ->
  (forall s, history parsePicks parseAssignment parseQuestions s0 s -> module_ok s)
  /\ (forall ops, OpAddResource ∉ ops ->
      completed_certified (run parsePicks parseAssignment parseQuestions ops s0))
  /\ (forall s m, questions (ui s) <> [] -> currentModule (ui s) = Some m ->
      let s' := exec (submitTest FinalTest) s in
      exists m',
        currentModule (ui s') = Some m'
        /\ finalTestScore m' = score (ui s')
        /\ (certificateIssued m' = true <-> (80 <=? score (ui s'))%float = true)
        /\ (certificateIssued m' = true <-> status m' = completed)).
Proof.
  intros H0. split; [|split].
  - intros s Hh. induction Hh as [|op s Hh IH Hop]; [exact H0|].
    apply lifecycle_op_module_ok; assumption.
  - intros ops Hno. apply run_completed_certified; [exact Hno|].
    intros m Hm Hst. apply (H0 m Hm), Hst.
  - intros s m Hne Hm s'. subst s'.
    destruct (questions (ui s)) as [|q qs] eqn:Hq; [done|].
    rewrite (submitTest_score FinalTest s q qs Hq).
    eexists. split; [apply (submitTest_final_module s m q qs Hq Hm)|].
    unfold spread, passes.
    cbn [fold_left set_field certificateIssued status finalTestScore].
    split; [reflexivity|].
    destruct (80 <=? calculateScore (userAnswers (ui s)) (q :: qs))%float;
      repeat split; congruence.
Qed.

(** C4 (amended): status is written by four kinds of operation only, and
    by each whatever the status was: assignment completion sets
    'assignment_done', a final-test submission sets 'completed' when the
    score is >= 80 and 'needs_revisit' otherwise, a reset sets 'started',
    and module creation installs a module with status 'started'.  Every
    other operation (addResource left aside) keeps the status. *)
Theorem C4_status_writers (s : App) (m : Module) :
  currentModule (ui s) = Some m ->
  (forall op m',
      op <> OpAddResource ->
      currentModule (ui (exec (handle op) s)) = Some m' ->
      status m' <> status m ->
      match op with
      | OpGoToNextAssignmentSection | OpSubmitAssignment => status m' = assignment_done
      | OpSubmitTest FinalTest =>
          status m' = if passes (score (ui (exec (submitTest FinalTest) s)))
                      then completed else needs_revisit
      | OpResetModuleForRetry | OpCreateNewModule => status m' = started
      | _ => False
      end)
  /\ (exists m', currentModule (ui (exec resetModuleForRetry s)) = Some m'
                 /\ status m' = started)
  /\ (questions (ui s) <> [] ->
      exists m', currentModule (ui (exec (submitTest FinalTest) s)) = Some m'
                 /\ status m' = if passes (score (ui (exec (submitTest FinalTest) s)))
                                then completed else needs_revisit)
  /\ (assignmentContent (ui s) <> None ->
      exists m', currentModule (ui (exec submitAssignment s)) = Some m'
                 /\ status m' = assignment_done).
Proof.
  intros Hm. split; [|split; [|split]].
  - intros op m' Hop Hm' Hne.
    assert (Hsame : currentModule (ui (exec (handle op) s)) = currentModule (ui s) -> False).
    { intros E. rewrite E, Hm in Hm'. injection Hm' as <-. contradiction. }
    destruct op; try contradiction;
      try (apply Hsame; apply (quiet_ops_module _ s); exact I).
    + destruct (createNewModule_module s) as [E|(m1 & E & Hst & _)]; [tauto|].
      cbn [handler] in Hm'. rewrite E in Hm'. injection Hm' as <-. exact Hst.
    + destruct (assignment_completion_module OpGoToNextAssignmentSection s m)
        as [E|(a & t & E)]; [auto|exact Hm|exfalso; apply Hsame; congruence|].
      rewrite E in Hm'. injection Hm' as <-. reflexivity.
    + destruct (assignment_completion_module OpSubmitAssignment s m)
        as [E|(a & t & E)]; [auto|exact Hm|exfalso; apply Hsame; congruence|].
      rewrite E in Hm'. injection Hm' as <-. reflexivity.
    + apply Hsame. apply generateTest_module.
    + destruct (submitTest_module_cases type s) as [E|(m1 & q & qs & Hq & Hm1)]; [tauto|].
      rewrite Hm in Hm1. injection Hm1 as <-.
      cbn [handler] in Hm'. destruct type.
      * rewrite (submitTest_quiz_module s m q qs Hq Hm) in Hm'. injection Hm' as <-.
        apply Hne. reflexivity.
      * rewrite (submitTest_score FinalTest s q qs Hq).
        rewrite (submitTest_final_module s m q qs Hq Hm) in Hm'. injection Hm' as <-.
        reflexivity.
    + cbn [handler] in Hm'. rewrite (resetModuleForRetry_module s m Hm) in Hm'.
      injection Hm' as <-. reflexivity.
  - eexists. split; [apply (resetModuleForRetry_module s m Hm)|reflexivity].
  - intros Hq. destruct (questions (ui s)) as [|q qs] eqn:Eq; [done|].
    rewrite (submitTest_score FinalTest s q qs Eq).
    eexists. split; [apply (submitTest_final_module s m q qs Eq Hm)|reflexivity].
  - intros Ha. destruct (assignmentContent (ui s)) as [a|] eqn:Ea; [|done].
    open_state s. unfold submitAssignment. js_run; eexists; split; reflexivity.
Qed.

End Lifecycle.

(** * Concrete runs *)

(** C1 (counterexample): a learner passes the final test, then invokes
    [goToNextAssignmentSection] (no assignment is loaded, so it completes
    the assignment) and submits a quiz: after the quiz submission the
    module holds a certificate with status [assignment_done]. *)
Lemma C1_counterexample :
  let s := run picksParser assignmentParser questionsParser
             (passFinalTest
              ++ [OpGoToNextAssignmentSection; OpGenerateTest Quiz; OpSubmitTest Quiz])
             (initialApp (Some "key") true examWorld) in
  exists m,
    currentModule (ui s) = Some m
    /\ length (quizzes m) = 1
    /\ certificateIssued m = true
    /\ status m = assignment_done
    /\ ~ certificate_invariant m.
Proof.
  eexists. split; [vm_compute; reflexivity|].
  split; [reflexivity|]. split; [reflexivity|]. split; [reflexivity|].
  intros [H _]. discriminate (H eq_refl).
Qed.

Lemma C1_certificate_iff_completed_witness :
  let handle := handler picksParser assignmentParser questionsParser in
  let s0 := initialApp (Some "key") true examWorld in
  let s := exec (handle (OpSubmitTest FinalTest))
             (exec (handle (OpGenerateTest FinalTest))
                (exec (handle OpCreateNewModule)
                   (exec (handle (OpSetTopic "Graph Theory Basics")) s0))) in
  module_ok s0 /\ module_ok s.
Proof.
  assert (H0 : module_ok (initialApp (Some "key") true examWorld))
    by (intros m Hm; discriminate Hm).
  split; [exact H0|].
  apply (proj1 (C1_certificate_iff_completed picksParser assignmentParser questionsParser
                  (initialApp (Some "key") true examWorld) H0)).
  repeat (apply history_step; [|exact I]).
  apply history_start.
Defined.

(** C2 (failing runs): whenever the credential is present,
    [generateModuleContent] ends with [assignmentContent] null, having
    issued no assignment request and no [assignmentContent] write.  In
    particular, with a ready store and a service answering with text that
    is not JSON, the resource placeholder is written and then the
    operation ends in its [catch] branch, although the placeholder
    assignment it would have substituted is schema-valid. *)
Theorem C2_assignment_fallback_not_reached :
  (forall parsePicks parseAssignment s moduleName moduleId,
      let s' := exec (generateModuleContent parsePicks parseAssignment
                        moduleName moduleId) s in
      match present_key (geminiApiKey s) with
      | None => True
      | Some _ =>
          assignmentContent (ui s') = None
          /\ exists new,
               effects s' = effects s ++ new
               /\ existsb (fetches_schema AssignmentSchema) new = false
               /\ existsb mentions_assignmentContent new = false
      end)
  /\ (let s := initialApp (Some "key") true garbledWorld in
      let s' := exec (generateModuleContent picksParser assignmentParser
                        "Graph Theory Basics" "module-1") s in
      assignmentContent (ui s') = None
      /\ teacherPicks (ui s') = []
      /\ effects s'
         = [ EvFetch {| req_key := "key";
                        req_prompt := resourcePrompt "Graph Theory Basics";
                        req_schema := ResourceListSchema |};
             EvSetDoc "module-1" [FTeacherPicks picksMalformed] true ]
      /\ store s' !! "module-1" = Some [FTeacherPicks picksMalformed]
      /\ errorMessage (ui s')
         = "Failed to generate module content: payload is not defined. Ensure your API key is valid."
      /\ schema_valid (fallbackAssignment "Graph Theory Basics") = true).
Proof.
  split.
  - intros pp pa s moduleName moduleId s'. subst s'.
    destruct (present_key (geminiApiKey s)) as [key|] eqn:Hk; [|exact I].
    split.
    + apply (generateModuleContent_summary pp pa s moduleName moduleId key Hk).
    + apply (generateModuleContent_effects pp pa s moduleName moduleId key Hk).
  - vm_compute. repeat split; reflexivity.
Qed.

(** C3 (counterexample): the resource request fails in transport and the
    assignment request is never issued. *)
Lemma C3_counterexample :
  let s := initialApp (Some "key") true offlineWorld in
  let s' := exec (generateModuleContent picksParser assignmentParser
                    "Graph Theory Basics" "module-1") s in
  net (world s) (tick s) = NetworkError "Failed to fetch"
  /\ effects s'
     = [ EvFetch {| req_key := "key";
                    req_prompt := resourcePrompt "Graph Theory Basics";
                    req_schema := ResourceListSchema |} ]
  /\ existsb (fetches_schema AssignmentSchema) (effects s') = false.
Proof. vm_compute. repeat split; reflexivity. Qed.

Lemma C3_resource_first_then_own_write_witness :
  let s := initialApp (Some "key") true garbledWorld in
  let s' := exec (generateModuleContent picksParser assignmentParser
                    "Graph Theory Basics" "module-1") s in
  exists rest,
    effects s'
    = effects s ++
      [ EvFetch {| req_key := "key";
                   req_prompt := resourcePrompt "Graph Theory Basics";
                   req_schema := ResourceListSchema |};
        EvSetDoc "module-1" [FTeacherPicks picksMalformed] true ] ++ rest.
Proof.
  pose proof (C3_resource_first_then_own_write picksParser assignmentParser
                (initialApp (Some "key") true garbledWorld)
                "Graph Theory Basics" "module-1" "key" eq_refl eq_refl) as H.
  cbv zeta in H. cbn [net world tick garbledWorld initialApp textResponse] in H.
  exact (proj1 H).
Defined.

(** C4 (counterexample): a final test taken right after creation moves
    status from 'started' to 'completed', and a reset then moves it from
    'completed' back to 'started'; neither is a listed transition. *)
Lemma C4_counterexample :
  let handle := handler picksParser assignmentParser questionsParser in
  let s0 := initialApp (Some "key") true examWorld in
  let created := run picksParser assignmentParser questionsParser
                   (take 2 passFinalTest) s0 in
  let passed := run picksParser assignmentParser questionsParser passFinalTest s0 in
  let reset := exec (handle OpResetModuleForRetry) passed in
  status <$> currentModule (ui created) = Some started
  /\ status <$> currentModule (ui passed) = Some completed
  /\ status <$> currentModule (ui reset) = Some started
  /\ id <$> currentModule (ui reset) = id <$> currentModule (ui created)
  /\ listed_transition started completed = false
  /\ listed_transition completed started = false
  /\ rank started < rank completed.
Proof. vm_compute. repeat split; first [reflexivity | lia]. Qed.

Lemma C4_status_writers_witness :
  let s := sampleApp None (Some (sampleModule completed true)) ∅ 0%Z in
  exists m', currentModule (ui (exec resetModuleForRetry s)) = Some m'
             /\ status m' = started.
Proof.
  exact (proj1 (proj2 (C4_status_writers picksParser assignmentParser questionsParser
                         (sampleApp None (Some (sampleModule completed true)) ∅ 0%Z)
                         (sampleModule completed true) eq_refl))).
Defined.

(** C9 (counterexample): no credential and no module selected;
    [generateTest] reports the missing module, not the configuration. *)
Lemma C9_counterexample :
  let s := initialApp None true offlineWorld in
  let s' := exec (generateTest questionsParser Quiz) s in
  present_key (geminiApiKey s) = None
  /\ errorMessage (ui s') = "Please select or create a module first."
  /\ errorMessage (ui s') <> apiKeyMissing.
Proof. vm_compute. repeat split; discriminate. Qed.

Lemma C9_missing_key_aborts_witness :
  let s := sampleApp None (Some (sampleModule assignment_done false)) ∅ 0%Z in
  errorMessage (ui (exec (generateModuleContent picksParser assignmentParser
                            "Graph Theory Basics" "module-1") s)) = apiKeyMissing
  /\ errorMessage (ui (exec (generateTest questionsParser Quiz) s)) = apiKeyMissing
  /\ effects (exec (generateTest questionsParser Quiz) s) = [].
Proof.
  destruct (C9_missing_key_aborts picksParser assignmentParser questionsParser
              (sampleApp None (Some (sampleModule assignment_done false)) ∅ 0%Z)
              "Graph Theory Basics" "module-1" Quiz eq_refl)
    as ((H1 & _) & (H2 & _ & H3 & _)).
  repeat split; assumption.
Defined.

(** * Further properties of the handlers *)

(** ** The persistence helper (lines 148-163) *)

(** A key of a document written over another one reads from the data
    written, and from the old document where the data have no such key. *)
Lemma doc_get_app {A} (proj : Field -> option A) (d data : Doc) :
  doc_get proj (d ++ data)
  = match doc_get proj data with
    | Some v => Some v
    | None => doc_get proj d
    end.
Proof.
  unfold doc_get. rewrite fold_left_app.
  generalize (fold_left (fun acc f => match proj f with Some v => Some v | None => acc end) d None).
  induction data as [|f data IH] using rev_ind; intros o; [reflexivity|].
  rewrite !fold_left_app. cbn. destruct (proj f); [reflexivity|]. apply IH.
Qed.

(** X1: [updateModuleInFirestore] never throws.  Without a database it
    issues no write and reports "Database not ready. Please try again.";
    with one it issues exactly one merge write to the module's document.
    If the store rejects the write, the store is unchanged and the
    rejection's message is reported behind "Failed to save module
    progress: "; otherwise the interface state is unchanged and every
    key of the stored document reads from the data written, or from the
    previous document where the data do not have it. *)
Theorem updateModuleInFirestore_outcomes (moduleId : string) (data : Doc) (s : App) :
  let r := updateModuleInFirestore moduleId data s in
  let s' := snd r in
  fst r = Ret tt
  /\ if firestoreReady s then
       effects s' = effects s ++ [EvSetDoc moduleId data true]
       /\ match store_fault (world s) (tick s) with
          | Some msg =>
              store s' = store s
              /\ errorMessage (ui s') = "Failed to save module progress: " +:+ msg
          | None =>
              ui s' = ui s
              /\ exists d, store s' = <[moduleId := d]> (store s)
                 /\ forall (A : Type) (proj : Field -> option A),
                      doc_get proj d
                      = match doc_get proj data with
                        | Some v => Some v
                        | None => doc_get proj (default [] (store s !! moduleId))
                        end
          end
     else
       effects s' = effects s /\ store s' = store s
       /\ errorMessage (ui s') = "Database not ready. Please try again.".
Proof.
  destruct s as [k r u st w t ef]; destruct u. js_eval.
  destruct r; js_eval; [|repeat split].
  destruct (store_fault w t) as [msg|]; js_eval; repeat split.
  eexists. split; [reflexivity|]. intros A proj. apply doc_get_app.
Qed.

(** ** Submitting a test (lines 665-713) *)

(** X2: without generated questions [submitTest] only reports "Please
    generate a test first.": module, score, phase and score details are
    unchanged, and nothing is written or requested. *)
Theorem submitTest_without_questions (type : TestType) (s : App) :
  questions (ui s) = [] ->
  let s' := exec (submitTest type) s in
  errorMessage (ui s') = "Please generate a test first."
  /\ currentModule (ui s') = currentModule (ui s)
  /\ score (ui s') = score (ui s)
  /\ appPhase (ui s') = appPhase (ui s)
  /\ lastScoreDetails (ui s') = lastScoreDetails (ui s)
  /\ effects s' = effects s /\ store s' = store s /\ tick s' = tick s.
Proof. intros Hq. open_state s. repeat split. Qed.

(** X3: submitting a quiz moves to the final test exactly when the score
    reaches 80 and otherwise leaves the phase alone; the "Proceed to
    Final Test" button is locked afterwards iff it was locked before and
    this quiz was not passed; the score details are not touched. *)
Theorem submitTest_quiz_gate (s : App) (m : Module) :
  questions (ui s) <> [] ->
  currentModule (ui s) = Some m ->
  let s' := exec (submitTest Quiz) s in
  appPhase (ui s') = (if passes (score (ui s')) then finalTest else appPhase (ui s))
  /\ finalTestLocked (ui s') = (finalTestLocked (ui s) && negb (passes (score (ui s'))))%bool
  /\ lastScoreDetails (ui s') = lastScoreDetails (ui s).
Proof.
  intros Hne Hm. destruct (questions (ui s)) as [|q qs] eqn:Hq; [done|].
  cbv zeta. split; [|split].
  - open_state s. unfold submitTest. js_run; first [reflexivity | congruence].
  - unfold finalTestLocked.
    rewrite (submitTest_quiz_module s m q qs Hq Hm), Hm, (submitTest_score Quiz s q qs Hq).
    unfold spread. cbn [fold_left set_field quizzes].
    rewrite existsb_app. cbn [existsb q_score].
    destruct (existsb _ (quizzes m)), (passes _); reflexivity.
  - open_state s. unfold submitTest. js_run; first [reflexivity | congruence].
Qed.

(** X4: submitting a final test always ends on the results screen, with
    score details that carry the score just computed; the certificate
    form is offered iff the score reaches 80 and the retry button iff it
    does not. *)
Theorem submitTest_final_results (s : App) (m : Module) :
  questions (ui s) <> [] ->
  currentModule (ui s) = Some m ->
  let s' := exec (submitTest FinalTest) s in
  let sc := score (ui s') in
  appPhase (ui s') = results
  /\ lastScoreDetails (ui s')
     = Some {| sd_score := sc; sd_comment := passComment (passes sc);
               sd_certificateIssued := passes sc |}
  /\ showCertificate (ui s') = passes sc
  /\ certificateOffered (ui s') = passes sc
  /\ retryOffered (ui s') = negb (passes sc).
Proof.
  intros Hne Hm. destruct (questions (ui s)) as [|q qs] eqn:Hq; [done|].
  open_state s. unfold submitTest, certificateOffered, retryOffered.
  js_run; repeat split; first [reflexivity | cbn in *; congruence].
Qed.

Lemma passes_of_five (c : nat) :
  c <= 5 -> passes (number c / number 5 * 100)%float = Nat.leb 4 c.
Proof.
  intros Hc. do 6 (destruct c as [|c]; [vm_compute; reflexivity|]). lia.
Qed.

(** X5: with the five questions the prompts ask for, the pass mark of 80
    is met exactly when at least four questions count as correct (the
    recorded answer [===] the question's [correctAnswer], both possibly
    [undefined]), in floating point as in exact arithmetic. *)
Theorem five_question_pass_mark (type : TestType) (s : App) :
  length (questions (ui s)) = 5 ->
  passes (score (ui (exec (submitTest type) s)))
  = Nat.leb 4 (correct_answers (userAnswers (ui s)) (questions (ui s))).
Proof.
  intros H5. destruct (questions (ui s)) as [|q qs] eqn:Hq; [discriminate|].
  rewrite (submitTest_score type s q qs Hq). unfold calculateScore.
  rewrite countCorrect_correct_answers, H5.
  apply passes_of_five. rewrite <- H5. apply correct_answers_le.
Qed.

(** ** Recording answers (lines 656-663) *)

(** X6: [handleAnswerChange] records the option under the question's
    index and leaves the other answers, the questions, the module and the
    store alone; choosing again for the same question replaces the
    earlier choice. *)
Theorem handleAnswerChange_records (i : nat) (o o' : string) (s : App) :
  let s' := exec (handleAnswerChange i o) s in
  userAnswers (ui s') !! i = Some o
  /\ (forall j, j <> i -> userAnswers (ui s') !! j = userAnswers (ui s) !! j)
  /\ questions (ui s') = questions (ui s)
  /\ currentModule (ui s') = currentModule (ui s)
  /\ effects s' = effects s /\ store s' = store s
  /\ exec (handleAnswerChange i o') s' = exec (handleAnswerChange i o') s.
Proof.
  destruct s as [k r u st w t ef]; destruct u. unfold handleAnswerChange. js_eval.
  repeat split.
  - apply lookup_insert_eq.
  - intros j Hj. apply lookup_insert_ne. congruence.
  - rewrite insert_insert_eq. reflexivity.
Qed.

Lemma countCorrect_ext answers answers' qs : forall i c,
  (forall j, i <= j < i + length qs -> answers !! j = answers' !! j) ->
  countCorrect answers qs i c = countCorrect answers' qs i c.
Proof.
  induction qs as [|q qs IH]; intros i c H; cbn [countCorrect]; [reflexivity|].
  unfold isCorrect, recorded. rewrite (H i) by (cbn; lia).
  apply IH. intros j Hj. apply H. cbn. lia.
Qed.

(** X7: an answer recorded under an index that is not a question's does
    not change the score a submission computes. *)
Theorem score_ignores_answers_out_of_range (type : TestType) (s : App)
    (i : nat) (o : string) :
  length (questions (ui s)) <= i ->
  score (ui (exec (submitTest type) (exec (handleAnswerChange i o) s)))
  = score (ui (exec (submitTest type) s)).
Proof.
  intros Hi. destruct (questions (ui s)) as [|q qs] eqn:Hq.
  - open_state s. reflexivity.
  - rewrite (submitTest_score type s q qs Hq).
    rewrite (submitTest_score type _ q qs).
    + unfold calculateScore. f_equal. f_equal. f_equal.
      apply countCorrect_ext. intros j Hj.
      destruct s as [k r u st w t ef]; destruct u. unfold handleAnswerChange. js_eval.
      apply lookup_insert_ne. cbn [length] in Hi, Hj. lia.
    + open_state s. reflexivity.
Qed.

Lemma countCorrect_shift answers qs : forall i c,
  countCorrect answers qs i (S c) = S (countCorrect answers qs i c).
Proof.
  induction qs as [|q qs IH]; intros i c; cbn [countCorrect]; [reflexivity|].
  destruct (isCorrect answers i q); apply IH.
Qed.

Lemma countCorrect_select_right answers qs : forall k c i q correct,
  qs !! i = Some q ->
  correctAnswer q = Str correct ->
  isCorrect answers (k + i) q = false ->
  countCorrect (<[k + i := correct]> answers) qs k c
  = S (countCorrect answers qs k c).
Proof.
  induction qs as [|q0 qs IH]; intros k c i q correct Hi Hk Hc; [discriminate|].
  cbn [countCorrect]. destruct i as [|i]; cbn in Hi.
  - injection Hi as ->. rewrite Nat.add_0_r in *.
    rewrite Hc. unfold isCorrect at 1, recorded.
    rewrite lookup_insert_eq, Hk, String.eqb_refl.
    rewrite (countCorrect_ext (<[k:=correct]> answers) answers qs (S k)).
    + apply countCorrect_shift.
    + intros j Hj. apply lookup_insert_ne. lia.
  - replace (k + S i) with (S k + i) in * by lia.
    unfold isCorrect at 1, recorded. rewrite lookup_insert_ne by lia.
    fold (recorded answers k). fold (isCorrect answers k q0).
    apply (IH (S k) _ i q correct); assumption.
Qed.

(** X8: choosing the option that is the [correctAnswer] of a question
    not counted as correct so far raises the number of correct answers
    by exactly one. *)
Theorem selecting_the_right_option_counts (s : App) (i : nat) (q : Question)
    (correct : string) :
  questions (ui s) !! i = Some q ->
  correctAnswer q = Str correct ->
  isCorrect (userAnswers (ui s)) i q = false ->
  let s' := exec (handleAnswerChange i correct) s in
  correct_answers (userAnswers (ui s')) (questions (ui s'))
  = S (correct_answers (userAnswers (ui s)) (questions (ui s))).
Proof.
  intros Hi Hk Hc. cbv zeta. rewrite <- !countCorrect_correct_answers.
  destruct s as [k r u st w t ef]; destruct u. unfold handleAnswerChange. js_eval.
  cbn in Hi, Hc.
  apply (countCorrect_select_right userAnswers0 questions0 0 0 i q correct Hi Hk Hc).
Qed.

(** ** Assignment responses and submission (lines 496-540) *)

(** X9: [handleAssignmentResponseChange] makes the text area of the task
    show the value typed and changes what no other text area shows; it
    touches neither the module nor the store. *)
Theorem handleAssignmentResponseChange_records (sectionId taskId value : string) (s : App) :
  let s' := exec (handleAssignmentResponseChange sectionId taskId value) s in
  responseShown (assignmentResponses (ui s')) sectionId taskId = value
  /\ (forall sec task, (sec, task) <> (sectionId, taskId) ->
        responseShown (assignmentResponses (ui s')) sec task
        = responseShown (assignmentResponses (ui s)) sec task)
  /\ currentModule (ui s') = currentModule (ui s)
  /\ effects s' = effects s /\ store s' = store s.
Proof.
  destruct s as [k r u st w t ef]; destruct u.
  unfold handleAssignmentResponseChange, responseShown. js_eval.
  repeat split.
  - rewrite !lookup_insert_eq. reflexivity.
  - intros sec task Hne. destruct (decide (sec = sectionId)) as [->|Hs].
    + rewrite lookup_insert_eq. rewrite lookup_insert_ne by congruence.
      destruct (assignmentResponses0 !! sectionId); [reflexivity|].
      cbn. rewrite lookup_empty. reflexivity.
    + rewrite lookup_insert_ne by congruence. reflexivity.
Qed.

(** X10: with a module and an assignment, [submitAssignment] marks the
    assignment completed with the responses typed so far, sets the
    status to [assignment_done], moves to the quiz, sends these three
    keys as one merge write when the database is ready, and always ends
    with the alert, whether or not the write succeeded. *)
Theorem submitAssignment_records_responses (s : App) (m : Module) (a : Assignment) :
  currentModule (ui s) = Some m ->
  assignmentContent (ui s) = Some a ->
  let s' := exec submitAssignment s in
  let entries := [FAssignments {| a_completed := Some true;
                                   a_responses := Some (assignmentResponses (ui s)) |};
                  FStatus assignment_done; FLastUpdated (time (world s) (tick s))] in
  currentModule (ui s') = Some (spread m entries)
  /\ appPhase (ui s') = quiz
  /\ effects s' = effects s
       ++ (if firestoreReady s then [EvSetDoc (id m) entries true] else [])
       ++ [EvAlert "Assignment submitted! (In a real app, this would be graded)"].
Proof.
  intros Hm Ha. open_state s. unfold submitAssignment.
  js_run; repeat split; rewrite <- ?app_assoc; reflexivity.
Qed.

(** X11: without a module or without an assignment [submitAssignment]
    only reports "No assignment to submit."; module, phase, store and
    effects are unchanged (no alert). *)
Theorem submitAssignment_without_assignment (s : App) :
  currentModule (ui s) = None \/ assignmentContent (ui s) = None ->
  let s' := exec submitAssignment s in
  errorMessage (ui s') = "No assignment to submit."
  /\ currentModule (ui s') = currentModule (ui s)
  /\ appPhase (ui s') = appPhase (ui s)
  /\ effects s' = effects s /\ store s' = store s.
Proof.
  intros [H|H]; open_state s; unfold submitAssignment; js_run; repeat split.
Qed.

(** X12: [goToNextAssignmentSection] with a module selected and no
    assignment loaded takes the branch of the last section: the
    assignment is marked completed, the status becomes
    [assignment_done] and the phase [quiz], at whatever section index. *)
Theorem goToNextAssignmentSection_without_assignment (s : App) (m : Module) :
  assignmentContent (ui s) = None ->
  currentModule (ui s) = Some m ->
  let s' := exec goToNextAssignmentSection s in
  currentModule (ui s')
  = Some (spread m [FAssignments (markCompleted (assignments m));
                    FStatus assignment_done; FLastUpdated (time (world s) (tick s))])
  /\ appPhase (ui s') = quiz
  /\ currentAssignmentSectionIndex (ui s') = currentAssignmentSectionIndex (ui s).
Proof.
  intros Ha Hm. open_state s. unfold goToNextAssignmentSection.
  js_run; repeat split.
Qed.

(** ** Module creation (lines 166-438) *)

Section Creation.

Variable parsePicks : string -> Parsed (list Pick).
Variable parseAssignment : string -> Parsed Assignment.

Ltac gmc_exec :=
  unfold generateModuleContent, generateTeacherPicks; js_eval;
  repeat (split_js; js_eval; rewrite ?generateAssignment_throws; js_eval).

(** [generateModuleContent] returns normally whatever the service and
    the store do, and hands back the state with [loading] off and the
    navigation as it found it. *)
Lemma generateModuleContent_run (moduleName moduleId : string) (s : App) :
  let r := generateModuleContent parsePicks parseAssignment moduleName moduleId s in
  r.1 = Ret tt
  /\ loading (ui r.2) = false
  /\ currentModule (ui r.2) = currentModule (ui s)
  /\ appPhase (ui r.2) = appPhase (ui s)
  /\ topic (ui r.2) = topic (ui s)
  /\ currentAssignmentSectionIndex (ui r.2) = currentAssignmentSectionIndex (ui s)
  /\ assignmentResponses (ui r.2) = assignmentResponses (ui s)
  /\ firestoreReady r.2 = firestoreReady s
  /\ world r.2 = world s.
Proof.
  destruct s as [k r u st w t ef]; destruct u.
  unfold generateModuleContent. js_eval.
  destruct (present_key k) as [key|]; [|js_eval; repeat split].
  gmc_exec; repeat split.
Qed.

(** X13: whatever the service answers and whether or not the store
    accepts the write, [generateModuleContent] ends with [loading] off
    and changes neither the selected module, the phase, the topic, the
    test in progress, the score details, the section shown, the
    responses typed, nor any document other than the module's. *)
Theorem generateModuleContent_frame (moduleName moduleId : string) (s : App) :
  let s' := exec (generateModuleContent parsePicks parseAssignment moduleName moduleId) s in
  loading (ui s') = false
  /\ currentModule (ui s') = currentModule (ui s)
  /\ appPhase (ui s') = appPhase (ui s)
  /\ topic (ui s') = topic (ui s)
  /\ questions (ui s') = questions (ui s)
  /\ userAnswers (ui s') = userAnswers (ui s)
  /\ score (ui s') = score (ui s)
  /\ lastScoreDetails (ui s') = lastScoreDetails (ui s)
  /\ currentAssignmentSectionIndex (ui s') = currentAssignmentSectionIndex (ui s)
  /\ assignmentResponses (ui s') = assignmentResponses (ui s)
  /\ (forall docId, docId <> moduleId -> store s' !! docId = store s !! docId).
Proof.
  destruct s as [k r u st w t ef]; destruct u.
  unfold generateModuleContent. js_eval.
  destruct (present_key k) as [key|]; [|js_eval; repeat split].
  gmc_exec; repeat split; intros docId Hne; try reflexivity;
    apply lookup_insert_ne; congruence.
Qed.

(** X14: [createNewModule] checks the topic, then the database, then
    the credential; when one of them is missing it reports the first
    failing check and does nothing else: no module is created or
    selected, the topic stays in the input, and nothing is written or
    requested. *)
Theorem createNewModule_guards (s : App) :
  is_blank (topic (ui s)) = true \/ firestoreReady s = false
  \/ present_key (geminiApiKey s) = None ->
  let s' := exec (createNewModule parsePicks parseAssignment) s in
  errorMessage (ui s')
  = (if is_blank (topic (ui s)) then "Please enter a topic for the new module."
     else if firestoreReady s then apiKeyMissing
     else "Database not ready. Please wait for authentication.")
  /\ currentModule (ui s') = currentModule (ui s)
  /\ topic (ui s') = topic (ui s)
  /\ loading (ui s') = loading (ui s)
  /\ appPhase (ui s') = appPhase (ui s)
  /\ effects s' = effects s /\ store s' = store s /\ tick s' = tick s.
Proof.
  intros H. destruct s as [k r u st w t ef]; destruct u. cbn in H.
  unfold createNewModule. js_eval.
  destruct (is_blank topic0); [repeat split|].
  destruct r; js_eval; [|repeat split].
  destruct (present_key k); js_eval; [|repeat split].
  destruct H as [H|[H|H]]; discriminate.
Qed.

(** X15: when the store rejects the write of the new document,
    [createNewModule] reports the rejection behind "Failed to create
    module: ", requests no content, selects nothing, keeps the topic in
    the input, leaves the store as it was and ends with [loading] off;
    the rejected write is its only effect. *)
Theorem createNewModule_first_write_fails (s : App) (key msg : string) :
  is_blank (topic (ui s)) = false ->
  firestoreReady s = true ->
  present_key (geminiApiKey s) = Some key ->
  store_fault (world s) (3 + tick s) = Some msg ->
  let s' := exec (createNewModule parsePicks parseAssignment) s in
  errorMessage (ui s') = "Failed to create module: " +:+ msg
  /\ currentModule (ui s') = currentModule (ui s)
  /\ topic (ui s') = topic (ui s)
  /\ loading (ui s') = false
  /\ store s' = store s
  /\ effects s'
     = effects s ++
       [EvSetDoc ("module-" +:+ pretty (time (world s) (tick s)))
          (newModuleData (topic (ui s)) (time (world s) (1 + tick s))
             (time (world s) (2 + tick s))) false].
Proof.
  intros Hb Hr Hk Hf. destruct s as [k r u st w t ef]; destruct u. cbn in Hb, Hr, Hk, Hf.
  subst r. unfold createNewModule. js_eval. rewrite Hb, Hk. js_eval. rewrite Hf. js_eval.
  repeat split.
Qed.

(** X16: when the first write is accepted, [createNewModule] ends with
    a module selected whose id is "module-" followed by the time of the
    click, named after the topic, [started], without certificate,
    quizzes or resources; the full write of the new document is its
    first effect; the phase is [assignment], the topic input is cleared,
    [loading] is off and the document is in the store, whatever happens
    to the content requests and to the later store operations. *)
Theorem createNewModule_installs_module (s : App) (key : string) :
  is_blank (topic (ui s)) = false ->
  firestoreReady s = true ->
  present_key (geminiApiKey s) = Some key ->
  store_fault (world s) (3 + tick s) = None ->
  let s' := exec (createNewModule parsePicks parseAssignment) s in
  let moduleId := "module-" +:+ pretty (time (world s) (tick s)) in
  (exists m rest,
      currentModule (ui s') = Some m
      /\ id m = moduleId /\ name m = topic (ui s)
      /\ status m = started /\ certificateIssued m = false
      /\ quizzes m = [] /\ resources m = []
      /\ createdAt m = time (world s) (1 + tick s)
      /\ effects s'
         = effects s ++
           EvSetDoc moduleId
             (newModuleData (topic (ui s)) (time (world s) (1 + tick s))
                (time (world s) (2 + tick s))) false :: rest)
  /\ appPhase (ui s') = assignment
  /\ topic (ui s') = EmptyString
  /\ loading (ui s') = false
  /\ is_Some (store s' !! moduleId).
Proof.
  intros Hb Hr Hk Hf. destruct s as [k r u st w t ef]; destruct u. cbn in Hb, Hr, Hk, Hf.
  subst r. unfold createNewModule. js_eval. rewrite Hb, Hk. js_eval. rewrite Hf. js_eval.
  match goal with |- context [generateModuleContent ?a ?b ?c ?d ?x] =>
    pose proof (generateModuleContent_summary a b x c d key Hk) as Hsum;
    pose proof (generateModuleContent_store a b x c d key Hk) as Hst;
    pose proof (generateModuleContent_effects a b x c d key Hk) as Hef;
    pose proof (generateModuleContent_run c d x) as Hfr;
    destruct (generateModuleContent a b c d x) as [o s2] eqn:E
  end.
  cbn [fst snd] in Hsum. cbv zeta in Hfr. unfold exec in Hst, Hef. rewrite E in Hst, Hef.
  cbn [fst snd] in Hst, Hef, Hfr.
  destruct Hsum as (-> & _ & _ & _ & Hr & _ & Hw).
  destruct Hef as (new & Hef & _).
  destruct Hfr as (_ & _ & Hcm & Hph & Htp & _).
  destruct s2 as [k2 r2 u2 st2 w2 t2 ef2]; destruct u2.
  cbn in Hcm, Hph, Htp, Hr, Hw, Hst, Hef. subst.
  js_eval.
  destruct (store_fault w t2); js_eval.
  { split; [|repeat split].
    - eexists _, _. repeat split. rewrite <- !app_assoc. reflexivity.
    - destruct Hst as [->|[picks ->]]; rewrite lookup_insert_eq; eauto. }
  destruct Hst as [->|[picks ->]]; rewrite !lookup_insert_eq; cbn;
    (split; [eexists _, _; repeat split; rewrite <- !app_assoc; try reflexivity
            |repeat split; rewrite ?lookup_insert_eq; eauto]).
Qed.

End Creation.

(** ** Test generation (lines 543-654) *)

Section TestGeneration.

Variable parseQuestions : string -> Parsed (list Question).

(** X17: with a module selected and a credential, [generateTest] sends
    exactly one request, with the question-set schema and the prompt
    built from the module and the teacher picks, and writes nothing.  It
    ends with [loading] off, the answers and the score cleared and the
    metrics of the test type shown.  The questions are the ones the
    response delivers, with no error message; when the response delivers
    none (network failure, HTTP error, no candidate, text that does not
    parse), the question list is empty and an error message is shown. *)
Theorem generateTest_outcome (type : TestType) (s : App) (m : Module) (key : string) :
  currentModule (ui s) = Some m ->
  present_key (geminiApiKey s) = Some key ->
  let s' := exec (generateTest parseQuestions type) s in
  effects s' = effects s ++
    [EvFetch {| req_key := key;
                req_prompt := testPrompt type m (teacherPicks (ui s));
                req_schema := QuestionSetSchema |}]
  /\ store s' = store s
  /\ loading (ui s') = false
  /\ userAnswers (ui s') = ∅
  /\ score (ui s') = 0%float
  /\ showCertificate (ui s') = false
  /\ assessmentMetrics (ui s')
     = Some (match type with Quiz => quizMetrics | FinalTest => finalTestMetrics end)
  /\ match delivered parseQuestions (net (world s) (tick s)) with
     | Some qs => questions (ui s') = qs /\ errorMessage (ui s') = EmptyString
     | None => questions (ui s') = [] /\ errorMessage (ui s') <> EmptyString
     end.
Proof.
  intros Hm Hk. open_state s. unfold generateTest, delivered. js_eval. rewrite Hk.
  js_run; repeat split; try discriminate.
Qed.

Lemma generateTest_nothing_delivered (type : TestType) (s : App) (m : Module) (key : string) :
  currentModule (ui s) = Some m ->
  present_key (geminiApiKey s) = Some key ->
  delivered parseQuestions (net (world s) (tick s)) = None ->
  let s' := exec (generateTest parseQuestions type) s in
  questions (ui s') = [] /\ store s' = store s.
Proof.
  intros Hm Hk Hd. open_state s. revert Hd. unfold generateTest, delivered.
  js_eval. rewrite Hk.
  js_run; intros Hd; first [discriminate | split; reflexivity].
Qed.

Lemma submitTest_empty (type : TestType) (s : App) :
  questions (ui s) = [] ->
  exec (submitTest type) s = exec (set (setErrorMessage "Please generate a test first.")) s.
Proof. intros Hq. open_state s. reflexivity. Qed.

(** X18: after a generation that delivered no questions, submitting
    either kind of test only reports "Please generate a test first.":
    the module is the one selected before, and the submission adds no
    effect and no write. *)
Theorem submitTest_after_failed_generation (type type' : TestType) (s : App)
    (m : Module) (key : string) :
  currentModule (ui s) = Some m ->
  present_key (geminiApiKey s) = Some key ->
  delivered parseQuestions (net (world s) (tick s)) = None ->
  let s1 := exec (generateTest parseQuestions type) s in
  let s2 := exec (submitTest type') s1 in
  errorMessage (ui s2) = "Please generate a test first."
  /\ currentModule (ui s2) = Some m
  /\ effects s2 = effects s1
  /\ store s2 = store s.
Proof.
  intros Hm Hk Hd. cbv zeta.
  destruct (generateTest_nothing_delivered type s m key Hm Hk Hd) as (Hq & Hst).
  pose proof (generateTest_module parseQuestions type s) as Hcm. rewrite Hm in Hcm.
  rewrite (submitTest_empty type' _ Hq).
  destruct (exec (generateTest parseQuestions type) s) as [k1 r1 u1 st1 w1 t1 ef1].
  destruct u1. cbn in Hcm, Hst. subst. repeat split.
Qed.

(** X19: when the service answers with an HTTP error whose body carries
    an error message, [generateTest] shows "Error generating test: API
    error: <status> - <message>. Ensure your API key is valid and
    enabled for Gemini." (the status text replaces an empty message) and
    leaves the question list empty. *)
Theorem generateTest_http_error (type : TestType) (s : App) (m : Module) (key : string)
    (code : nat) (text : string) (g : GenResult) (e : ApiError) :
  currentModule (ui s) = Some m ->
  present_key (geminiApiKey s) = Some key ->
  net (world s) (tick s)
  = Responded {| ok := false; http_status := code; statusText := text; body := BodyJson g |} ->
  error g = Some e ->
  let s' := exec (generateTest parseQuestions type) s in
  errorMessage (ui s')
  = "Error generating test: "
    +:+ ("API error: " +:+ pretty code +:+ " - " +:+ or_else (err_message e) text)
    +:+ ". Ensure your API key is valid and enabled for Gemini."
  /\ questions (ui s') = [].
Proof.
  intros Hm Hk Hn He. open_state s. unfold generateTest. js_eval. rewrite Hk. js_eval.
  rewrite Hn. js_eval. rewrite He. js_eval. split; reflexivity.
Qed.

End TestGeneration.

(** ** Local state and stored documents *)

Lemma module_of_doc_set_field docId d m f :
  module_of_doc docId d = Some m ->
  module_of_doc docId (d ++ [f]) = Some (set_field f m).
Proof.
  unfold module_of_doc. rewrite !doc_get_app. intros H.
  repeat match type of H with
         | match ?x with _ => _ end = _ => destruct x; [|discriminate]
         end.
  injection H as <-. destruct f; reflexivity.
Qed.

(** A merge write of some entries changes what the document reads back
    as in the way the spread of the same entries changes the module. *)
Lemma module_of_doc_spread docId data : forall d m,
  module_of_doc docId d = Some m ->
  module_of_doc docId (d ++ data) = Some (spread m data).
Proof.
  induction data as [|f data IH]; intros d m H.
  - rewrite app_nil_r. exact H.
  - change (d ++ f :: data) with (d ++ [f] ++ data). rewrite app_assoc.
    apply IH, module_of_doc_set_field, H.
Qed.

(** Writing all entries of a module makes the document read back as it. *)
Lemma module_of_doc_fields docId d m :
  module_of_doc docId (d ++ fields_of_module m) = Some m.
Proof.
  unfold module_of_doc. rewrite !doc_get_app. destruct m; reflexivity.
Qed.

Section Persistence.

Variable parsePicks : string -> Parsed (list Pick).
Variable parseAssignment : string -> Parsed Assignment.
Variable parseQuestions : string -> Parsed (list Question).

Abbreviation run_op := (handler parsePicks parseAssignment parseQuestions).

Ltac frame_goal :=
  split;
  [ first [ exists []; split; [symmetry; apply app_nil_r | constructor]
          | eexists; split; [rewrite <- ?app_assoc; reflexivity|];
            repeat constructor ]
  | intros ? ?; first [reflexivity | apply lookup_insert_ne; congruence] ].

(** X20: with a module selected, none of the operations of [Op] other
    than [createNewModule] and [addResource] reads the store, and each
    of their writes is a merge write to the document of the selected
    module: every other document of the store is left as it was. *)
Theorem writes_stay_on_current_module (op : Op) (s : App) (m : Module) :
  op <> OpCreateNewModule -> op <> OpAddResource ->
  currentModule (ui s) = Some m ->
  let s' := exec (run_op op) s in
  (exists new, effects s' = effects s ++ new /\ Forall (touches_only (id m)) new)
  /\ (forall docId, docId <> id m -> store s' !! docId = store s !! docId).
Proof.
  intros Hc Ha Hm. open_state s. destruct op; try contradiction; cbn [handler].
  - js_eval. frame_goal.
  - unfold handleAssignmentResponseChange. js_eval. frame_goal.
  - unfold goToNextAssignmentSection. js_run; frame_goal.
  - unfold goToPreviousAssignmentSection. js_run; frame_goal.
  - unfold submitAssignment. js_run; frame_goal.
  - unfold generateTest. js_run; frame_goal.
  - unfold handleAnswerChange. js_eval. frame_goal.
  - unfold submitTest. js_run; frame_goal.
  - unfold resetModuleForRetry. js_run; frame_goal.
Qed.

Ltac sync_goal d Hd Hs Hf :=
  first
    [ rewrite Hf in *; discriminate
    | intros ? [= <-]; eexists; split;
      [ first [ exact Hd | refine (lookup_insert_eq _ _ _) ]
      | first [ exact Hs
              | rewrite Hd; change (default [] (Some d)) with d;
                first [ refine (module_of_doc_spread _ _ _ _ Hs)
                      | refine (module_of_doc_fields _ _ _) ] ] ] ].

(** X21: when the database is ready and the store rejects nothing, the
    operations of [Op] other than [createNewModule] and [addResource] keep the
    selected module and its stored document in agreement: if the
    document read back as the module before, it does so afterwards. *)
Theorem successful_writes_keep_store_in_sync (op : Op) (s : App) :
  op <> OpCreateNewModule -> op <> OpAddResource ->
  firestoreReady s = true ->
  (forall n, store_fault (world s) n = None) ->
  in_sync s ->
  in_sync (exec (run_op op) s).
Proof.
  intros Hc Ha Hr Hf. unfold in_sync. open_state s.
  destruct currentModule0 as [m|].
  2:{ intros _. destruct op; try contradiction; cbn [handler].
      - js_eval. discriminate.
      - unfold handleAssignmentResponseChange. js_eval. discriminate.
      - unfold goToNextAssignmentSection. js_run; discriminate.
      - unfold goToPreviousAssignmentSection. js_run; discriminate.
      - unfold submitAssignment. js_run; discriminate.
      - unfold generateTest. js_run; discriminate.
      - unfold handleAnswerChange. js_eval. discriminate.
      - unfold submitTest. js_run; discriminate.
      - unfold resetModuleForRetry. js_run; discriminate. }
  cbn [currentModule ui store]. intros Hs.
  destruct (Hs m eq_refl) as (d & Hd & Hm). clear Hs.
  destruct op; try contradiction; cbn [handler].
  - js_eval. sync_goal d Hd Hm Hf.
  - unfold handleAssignmentResponseChange. js_eval. sync_goal d Hd Hm Hf.
  - unfold goToNextAssignmentSection. js_run; sync_goal d Hd Hm Hf.
  - unfold goToPreviousAssignmentSection. js_run; sync_goal d Hd Hm Hf.
  - unfold submitAssignment. js_run; sync_goal d Hd Hm Hf.
  - unfold generateTest. js_run; sync_goal d Hd Hm Hf.
  - unfold handleAnswerChange. js_eval. sync_goal d Hd Hm Hf.
  - unfold submitTest. js_run; sync_goal d Hd Hm Hf.
  - unfold resetModuleForRetry. js_run; sync_goal d Hd Hm Hf.
Qed.

End Persistence.

(** X22: when the store rejects the write of a final test, the outcome
    is kept locally all the same: the stored document is unchanged, the
    selected module carries the new status and certificate flag, and the
    phase is [results].  The rejection is reported behind "Failed to save
    module progress: ", so with [loading] off what is displayed is the
    error panel with that message, not the results; once the message is
    dismissed the results screen is displayed, and it offers the
    certificate iff the test was passed. *)
Theorem failed_final_write_is_not_rolled_back (s : App) (m : Module) (msg : string) :
  currentModule (ui s) = Some m ->
  questions (ui s) <> [] ->
  firestoreReady s = true ->
  store_fault (world s) (S (tick s)) = Some msg ->
  let s' := exec (submitTest FinalTest) s in
  let certificate := passes (calculateScore (userAnswers (ui s)) (questions (ui s))) in
  store s' = store s
  /\ (exists m', currentModule (ui s') = Some m'
        /\ status m' = (if certificate then completed else needs_revisit)
        /\ certificateIssued m' = certificate)
  /\ errorMessage (ui s') = "Failed to save module progress: " +:+ msg
  /\ appPhase (ui s') = results
  /\ certificateOffered (ui s') = certificate
  /\ renderContent true (ui s')
     = (if loading (ui s) then ResultsScreen
        else ErrorPanel ("Failed to save module progress: " +:+ msg))
  /\ renderContent true (setErrorMessage EmptyString (ui s')) = ResultsScreen
  /\ certificateOffered (setErrorMessage EmptyString (ui s')) = certificate.
Proof.
  intros Hm Hq Hr Hf. open_state s. unfold submitTest, certificateOffered.
  destruct questions0 as [|q qs]; [contradiction|].
  js_eval. rewrite Hf. js_eval.
  repeat split.
  - eexists. repeat split.
  - unfold renderContent. cbn. destruct loading0; reflexivity.
Qed.

(** X23: a reset whose write did not happen (no database, or the store
    rejected it) shows no error: the message set by the persistence
    helper is cleared by the reset itself, the store is unchanged, and
    the module is reset locally and shown in the assignment phase. *)
Theorem failed_reset_is_silent (s : App) (m : Module) :
  currentModule (ui s) = Some m ->
  firestoreReady s = false \/ is_Some (store_fault (world s) (S (tick s))) ->
  let s' := exec resetModuleForRetry s in
  store s' = store s
  /\ errorMessage (ui s') = EmptyString
  /\ appPhase (ui s') = assignment
  /\ (exists m', currentModule (ui s') = Some m' /\ status m' = started
                 /\ quizzes m' = [] /\ certificateIssued m' = false).
Proof.
  intros Hm H. open_state s. unfold resetModuleForRetry.
  destruct H as [H | [msg H]]; cbn in H.
  - subst. js_eval. repeat split. eexists. repeat split.
  - destruct firestoreReady0; js_eval; [rewrite H; js_eval|];
      (repeat split; eexists; repeat split).
Qed.

(** ** Module selection (lines 440-481) *)

Section Select.

Variable parsePicks : string -> Parsed (list Pick).
Variable parseAssignment : string -> Parsed Assignment.

Abbreviation select := (selectModule parsePicks parseAssignment).

(** X24: selecting a module that is [completed] or [needs_revisit]
    opens the results screen without any request or store access; the
    certificate form is offered iff the module's certificate flag is
    set, and the retry button iff it is not. *)
Theorem selectModule_finished (module : Module) (s : App) :
  status module = completed \/ status module = needs_revisit ->
  let s' := exec (select module) s in
  currentModule (ui s') = Some module
  /\ appPhase (ui s') = results
  /\ errorMessage (ui s') = EmptyString
  /\ certificateOffered (ui s') = certificateIssued module
  /\ retryOffered (ui s') = negb (certificateIssued module)
  /\ effects s' = effects s /\ store s' = store s /\ tick s' = tick s.
Proof.
  intros H. destruct s as [k r u st w t ef]; destruct u.
  unfold selectModule, certificateOffered, retryOffered.
  destruct H as [H|H]; rewrite H; js_eval; repeat split.
Qed.

(** X25: selecting an unfinished module that has an assignment and
    teacher picks makes no request and no store access: it installs the
    module with its picks and its assignment, derives the phase from the
    module (quiz after the assignment, final test when every quiz of a
    non-empty list reached 80, assignment otherwise), and starts at the
    first section with no responses. *)
Theorem selectModule_with_content (module : Module) (s : App) :
  hasContent module = true ->
  status module <> completed -> status module <> needs_revisit ->
  let s' := exec (select module) s in
  currentModule (ui s') = Some module
  /\ appPhase (ui s') = derived_phase module
  /\ teacherPicks (ui s') = m_teacherPicks module
  /\ assignmentContent (ui s') = m_assignmentContent module
  /\ currentAssignmentSectionIndex (ui s') = 0%Z
  /\ assignmentResponses (ui s') = ∅
  /\ loading (ui s') = loading (ui s)
  /\ effects s' = effects s /\ store s' = store s /\ tick s' = tick s.
Proof.
  intros Hc H1 H2. destruct s as [k r u st w t ef]; destruct u.
  unfold selectModule, derived_phase. rewrite Hc.
  destruct (status module) eqn:Hs; try congruence; js_eval;
    try (destruct (allQuizzesPassed module); js_eval); repeat split.
Qed.

(** X26: for an unfinished module, [selectModule] returns normally when
    the database is ready and the store rejects nothing; whenever it
    returns normally, the phase is the one derived from the module, at
    the first section with no responses; it can only throw for a module
    without content, after the generation attempt, and then the phase is
    [assignment] with [loading] off, and the section index and the
    responses of the module shown before are still in place. *)
Theorem selectModule_outcome (module : Module) (s : App) :
  status module <> completed -> status module <> needs_revisit ->
  let r := select module s in
  (firestoreReady s = true -> (forall n, store_fault (world s) n = None) ->
   r.1 = Ret tt)
  /\ (r.1 = Ret tt ->
      appPhase (ui r.2) = derived_phase module
      /\ currentAssignmentSectionIndex (ui r.2) = 0%Z
      /\ assignmentResponses (ui r.2) = ∅)
  /\ (forall e, r.1 = Throw e ->
      hasContent module = false
      /\ appPhase (ui r.2) = assignment
      /\ loading (ui r.2) = false
      /\ currentAssignmentSectionIndex (ui r.2) = currentAssignmentSectionIndex (ui s)
      /\ assignmentResponses (ui r.2) = assignmentResponses (ui s)).
Proof.
  intros H1 H2. destruct s as [k r u st w t ef]; destruct u.
  cbn [firestoreReady world ui currentAssignmentSectionIndex assignmentResponses].
  unfold derived_phase, selectModule, getModuleDocRef, getDocAt.
  destruct (hasContent module) eqn:Hc.
  - destruct (status module) eqn:Hs; try congruence;
      destruct (allQuizzesPassed module) eqn:Hq; js_eval;
      (split; [reflexivity|]); (split; [repeat split | discriminate]).
  - assert (Hgo : forall S1 : App,
              firestoreReady S1 = r -> world S1 = w ->
              appPhase (ui S1) = assignment ->
              currentAssignmentSectionIndex (ui S1) = currentAssignmentSectionIndex0 ->
              assignmentResponses (ui S1) = assignmentResponses0 ->
              exists S2,
                generateModuleContent parsePicks parseAssignment (name module) (id module) S1
                = (Ret tt, S2)
                /\ firestoreReady S2 = r /\ world S2 = w
                /\ appPhase (ui S2) = assignment /\ loading (ui S2) = false
                /\ currentAssignmentSectionIndex (ui S2) = currentAssignmentSectionIndex0
                /\ assignmentResponses (ui S2) = assignmentResponses0).
    { intros S1 <- <- Hp <- <-.
      pose proof (generateModuleContent_run parsePicks parseAssignment
                    (name module) (id module) S1) as Hrun.
      cbv zeta in Hrun.
      destruct (generateModuleContent parsePicks parseAssignment
                  (name module) (id module) S1) as [o S2].
      cbn [fst snd] in Hrun.
      destruct Hrun as (-> & Hl & _ & Hph & _ & Hi & Hr & Hfr & Hw).
      exists S2. repeat split; congruence. }
    destruct (status module) eqn:Hs; try congruence;
      destruct (allQuizzesPassed module) eqn:Hq; js_eval;
      match goal with
      | |- context [generateModuleContent ?a ?b ?c ?d ?S] =>
          destruct (Hgo S eq_refl eq_refl eq_refl eq_refl eq_refl)
            as (S2 & -> & Hr & Hw & Hp & Hl & Hi & Hrs)
      end;
      destruct S2 as [k2 r2 u2 st2 w2 t2 ef2]; destruct u2; cbn in Hr, Hw, Hp, Hl, Hi, Hrs;
      subst; js_run;
      (split; [intros Hr Hf; rewrite ?Hf in *; first [reflexivity|discriminate]|]);
      (split; [intros Hr; first [discriminate | repeat split]
              | intros e He; first [discriminate | repeat split]]).
Qed.

End Select.

(** ** The module list (lines 123-131) *)

Lemma insertModule_perm m l : Permutation (insertModule m l) (m :: l).
Proof.
  induction l as [|x l IH]; cbn; [reflexivity|].
  destruct (Nat.leb (createdAt x) (createdAt m)); [reflexivity|].
  rewrite IH. apply perm_swap.
Qed.

Lemma insertModule_sorted m l :
  StronglySorted (fun a b => createdAt b <= createdAt a) l ->
  StronglySorted (fun a b => createdAt b <= createdAt a) (insertModule m l).
Proof.
  induction 1 as [|x l Hl IH Hx]; cbn.
  - repeat constructor.
  - destruct (Nat.leb (createdAt x) (createdAt m)) eqn:E.
    + apply Nat.leb_le in E. constructor; [constructor; assumption|].
      constructor; [exact E|].
      eapply Forall_impl; [exact Hx|]. cbn. intros a Ha. lia.
    + apply Nat.leb_gt in E. constructor; [exact IH|].
      eapply Permutation_Forall; [symmetry; apply insertModule_perm|].
      constructor; [lia | exact Hx].
Qed.

Lemma insertModule_filter t m l :
  StronglySorted (fun a b => createdAt b <= createdAt a) l ->
  List.filter (fun x => Nat.eqb (createdAt x) t) (insertModule m l)
  = List.filter (fun x => Nat.eqb (createdAt x) t) (m :: l).
Proof.
  induction 1 as [|x l Hl IH Hx]; [reflexivity|].
  cbn [insertModule]. destruct (Nat.leb (createdAt x) (createdAt m)) eqn:E; [reflexivity|].
  apply Nat.leb_gt in E.
  cbn [List.filter] in *. rewrite IH.
  destruct (Nat.eqb (createdAt m) t) eqn:Em, (Nat.eqb (createdAt x) t) eqn:Ex;
    try reflexivity.
  apply Nat.eqb_eq in Em, Ex. lia.
Qed.

(** X27: the module list shows the fetched modules, each once, newest
    first, and modules created at the same time in the order in which
    the snapshot delivered them. *)
Theorem sortModules_newest_first_and_stable (fetchedModules : list Module) :
  Permutation (sortModules fetchedModules) fetchedModules
  /\ StronglySorted (fun a b => createdAt b <= createdAt a) (sortModules fetchedModules)
  /\ forall t, List.filter (fun x => Nat.eqb (createdAt x) t) (sortModules fetchedModules)
               = List.filter (fun x => Nat.eqb (createdAt x) t) fetchedModules.
Proof.
  induction fetchedModules as [|m l (Hp & Hs & Hf)]; cbn [sortModules fold_right].
  - repeat split; constructor.
  - fold (sortModules l). split; [|split].
    + rewrite insertModule_perm. constructor. exact Hp.
    + apply insertModule_sorted, Hs.
    + intros t. rewrite insertModule_filter by exact Hs.
      cbn [List.filter]. rewrite Hf. reflexivity.
Qed.

(** ** Screens and handlers (lines 873-899, 946-968) *)

(** X28: where the assignment screen renders the "Next Section" button
    (a section is shown and it is not the last one), the button's
    handler only moves to the next section: that section exists and is
    not the first one, and the module, the phase, the store and the
    effects are unchanged. *)
Theorem next_section_button_only_navigates (s : App) (isFirst : bool) :
  renderAssignmentPhase (ui s) = SectionShown isFirst false ->
  let s' := exec goToNextAssignmentSection s in
  currentAssignmentSectionIndex (ui s') = (currentAssignmentSectionIndex (ui s) + 1)%Z
  /\ (exists isLast, renderAssignmentPhase (ui s') = SectionShown false isLast)
  /\ currentModule (ui s') = currentModule (ui s)
  /\ appPhase (ui s') = appPhase (ui s)
  /\ effects s' = effects s /\ store s' = store s.
Proof.
  intros H. open_state s. unfold renderAssignmentPhase in H. cbn in H.
  destruct currentModule0 as [m|]; [|discriminate].
  destruct assignmentContent0 as [a|]; [|destruct loading0; discriminate].
  destruct loading0; [discriminate|].
  destruct (0 <=? currentAssignmentSectionIndex0)%Z eqn:E0; [|discriminate].
  destruct (currentAssignmentSectionIndex0 <? Z.of_nat (length (sections a)))%Z eqn:E1;
    [|discriminate].
  cbn in H. injection H as _ Hl.
  assert (Hlt : (currentAssignmentSectionIndex0 <? Z.of_nat (length (sections a)) - 1)%Z = true) by lia.
  unfold goToNextAssignmentSection. js_eval. rewrite Hlt. js_eval.
  repeat split. unfold renderAssignmentPhase. cbn.
  replace (0 <=? currentAssignmentSectionIndex0 + 1)%Z with true by lia.
  replace (currentAssignmentSectionIndex0 + 1 <? Z.of_nat (length (sections a)))%Z with true by lia.
  replace (currentAssignmentSectionIndex0 + 1 =? 0)%Z with false by lia.
  cbn. eexists. reflexivity.
Qed.

(** X29: where the "Previous Section" button is enabled (a section is
    shown and it is not the first one), its handler only moves to the
    section before: that section exists and is not the last one, and the
    module, the phase, the store and the effects are unchanged. *)
Theorem previous_section_button_only_navigates (s : App) (isLast : bool) :
  renderAssignmentPhase (ui s) = SectionShown false isLast ->
  let s' := exec goToPreviousAssignmentSection s in
  currentAssignmentSectionIndex (ui s') = (currentAssignmentSectionIndex (ui s) - 1)%Z
  /\ (exists isFirst, renderAssignmentPhase (ui s') = SectionShown isFirst false)
  /\ currentModule (ui s') = currentModule (ui s)
  /\ appPhase (ui s') = appPhase (ui s)
  /\ effects s' = effects s /\ store s' = store s.
Proof.
  intros H. open_state s. unfold renderAssignmentPhase in H. cbn in H.
  destruct currentModule0 as [m|]; [|discriminate].
  destruct assignmentContent0 as [a|]; [|destruct loading0; discriminate].
  destruct loading0; [discriminate|].
  destruct (0 <=? currentAssignmentSectionIndex0)%Z eqn:E0; [|discriminate].
  destruct (currentAssignmentSectionIndex0 <? Z.of_nat (length (sections a)))%Z eqn:E1;
    [|discriminate].
  cbn in H. injection H as Hf _.
  assert (Hlt : (0 <? currentAssignmentSectionIndex0)%Z = true) by lia.
  unfold goToPreviousAssignmentSection. js_eval. rewrite Hlt. js_eval.
  repeat split. unfold renderAssignmentPhase. cbn.
  replace (0 <=? currentAssignmentSectionIndex0 - 1)%Z with true by lia.
  replace (currentAssignmentSectionIndex0 - 1 <? Z.of_nat (length (sections a)))%Z with true by lia.
  replace (currentAssignmentSectionIndex0 - 1 =? Z.of_nat (length (sections a)) - 1)%Z with false by lia.
  cbn. eexists. reflexivity.
Qed.

(** * Concrete runs of the further properties *)

Lemma submitTest_without_questions_witness :
  let s := initialApp (Some "key") true offlineWorld in
  errorMessage (ui (exec (submitTest Quiz) s)) = "Please generate a test first."
  /\ effects (exec (submitTest Quiz) s) = [].
Proof.
  destruct (submitTest_without_questions Quiz (initialApp (Some "key") true offlineWorld) eq_refl)
    as (H1 & _ & _ & _ & _ & H2 & _).
  split; assumption.
Defined.

Lemma submitTest_quiz_gate_witness :
  let s := sampleApp None (Some (sampleModule assignment_done false)) ∅ 0%Z in
  appPhase (ui (exec (submitTest Quiz) s))
  = (if passes (score (ui (exec (submitTest Quiz) s))) then finalTest else appPhase (ui s)).
Proof.
  exact (proj1 (submitTest_quiz_gate
                  (sampleApp None (Some (sampleModule assignment_done false)) ∅ 0%Z)
                  (sampleModule assignment_done false)
                  ltac:(discriminate) eq_refl)).
Defined.

Lemma submitTest_final_results_witness :
  let s := sampleApp None (Some (sampleModule assignment_done false)) ∅ 0%Z in
  appPhase (ui (exec (submitTest FinalTest) s)) = results
  /\ retryOffered (ui (exec (submitTest FinalTest) s)) = true.
Proof.
  destruct (submitTest_final_results
              (sampleApp None (Some (sampleModule assignment_done false)) ∅ 0%Z)
              (sampleModule assignment_done false) ltac:(discriminate) eq_refl)
    as (H1 & _ & _ & _ & H5).
  split; [exact H1|]. rewrite H5. vm_compute. reflexivity.
Defined.

Lemma five_question_pass_mark_witness :
  let s := sampleApp None (Some (sampleModule assignment_done false))
             (<[0 := "A"]> (<[1 := "B"]> (<[2 := "C"]> (<[3 := "D"]> ∅)))) 0%Z in
  passes (score (ui (exec (submitTest FinalTest) s))) = true.
Proof.
  cbv zeta.
  rewrite (five_question_pass_mark FinalTest
             (sampleApp None (Some (sampleModule assignment_done false))
                (<[0 := "A"]> (<[1 := "B"]> (<[2 := "C"]> (<[3 := "D"]> ∅)))) 0%Z)
             eq_refl).
  vm_compute. reflexivity.
Defined.

Lemma score_ignores_answers_out_of_range_witness :
  let s := sampleApp None (Some (sampleModule assignment_done false)) ∅ 0%Z in
  score (ui (exec (submitTest Quiz) (exec (handleAnswerChange 7 "A") s)))
  = score (ui (exec (submitTest Quiz) s)).
Proof.
  apply (score_ignores_answers_out_of_range Quiz
           (sampleApp None (Some (sampleModule assignment_done false)) ∅ 0%Z) 7 "A").
  vm_compute. lia.
Defined.

Lemma selecting_the_right_option_counts_witness :
  let s := sampleApp None (Some (sampleModule assignment_done false)) (<[1 := "C"]> ∅) 0%Z in
  correct_answers (userAnswers (ui (exec (handleAnswerChange 1 "B") s))) sampleQuestions = 1.
Proof.
  exact (selecting_the_right_option_counts
           (sampleApp None (Some (sampleModule assignment_done false)) (<[1 := "C"]> ∅) 0%Z)
           1 {| question := "Q2"; options := [("A","a");("B","b");("C","c");("D","d")];
                correctAnswer := Str "B" |} "B" eq_refl eq_refl eq_refl).
Defined.

Lemma submitAssignment_records_responses_witness :
  let s := exec (handleAssignmentResponseChange "s1" "t1" "my answer")
             (sampleApp None (Some (sampleModule started false)) ∅ 2%Z) in
  exists m', currentModule (ui (exec submitAssignment s)) = Some m'
             /\ status m' = assignment_done
             /\ option_map (fun r => responseShown r "s1" "t1") (a_responses (assignments m'))
                = Some "my answer".
Proof.
  destruct (submitAssignment_records_responses
              (exec (handleAssignmentResponseChange "s1" "t1" "my answer")
                 (sampleApp None (Some (sampleModule started false)) ∅ 2%Z))
              (sampleModule started false) sampleAssignment eq_refl eq_refl) as (H & _).
  eexists. split; [exact H|]. split; reflexivity.
Defined.

Lemma submitAssignment_without_assignment_witness :
  errorMessage (ui (exec submitAssignment (initialApp None true offlineWorld)))
  = "No assignment to submit.".
Proof.
  exact (proj1 (submitAssignment_without_assignment (initialApp None true offlineWorld)
                  (or_introl eq_refl))).
Defined.

Lemma goToNextAssignmentSection_without_assignment_witness :
  let handle := handler picksParser assignmentParser questionsParser in
  let s := exec (handle OpCreateNewModule)
             (exec (handle (OpSetTopic "Graph Theory Basics"))
                (initialApp (Some "key") true garbledWorld)) in
  assignmentContent (ui s) = None
  /\ appPhase (ui (exec goToNextAssignmentSection s)) = quiz.
Proof.
  split; [vm_compute; reflexivity|].
  eapply (goToNextAssignmentSection_without_assignment
            (exec (handler picksParser assignmentParser questionsParser OpCreateNewModule)
               (exec (handler picksParser assignmentParser questionsParser
                        (OpSetTopic "Graph Theory Basics"))
                  (initialApp (Some "key") true garbledWorld)))).
  - vm_compute. reflexivity.
  - vm_compute. reflexivity.
Defined.

Lemma createNewModule_guards_witness :
  let s := exec (handler picksParser assignmentParser questionsParser (OpSetTopic nbspTopic))
             (initialApp None false offlineWorld) in
  topic (ui s) = nbspTopic
  /\ errorMessage (ui (exec (createNewModule picksParser assignmentParser) s))
     = "Please enter a topic for the new module."
  /\ effects (exec (createNewModule picksParser assignmentParser) s) = [].
Proof.
  destruct (createNewModule_guards picksParser assignmentParser
              (exec (handler picksParser assignmentParser questionsParser
                       (OpSetTopic nbspTopic))
                 (initialApp None false offlineWorld)) (or_introl eq_refl))
    as (H1 & _ & _ & _ & _ & H2 & _).
  split; [reflexivity|]. split; assumption.
Defined.

Lemma createNewModule_first_write_fails_witness :
  let s := exec (handler picksParser assignmentParser questionsParser
                   (OpSetTopic "Graph Theory Basics"))
             (initialApp (Some "key") true (faultyWorld 3 "permission-denied")) in
  let s' := exec (createNewModule picksParser assignmentParser) s in
  errorMessage (ui s') = "Failed to create module: permission-denied"
  /\ currentModule (ui s') = None
  /\ store s' = ∅.
Proof.
  destruct (createNewModule_first_write_fails picksParser assignmentParser
              (exec (handler picksParser assignmentParser questionsParser
                       (OpSetTopic "Graph Theory Basics"))
                 (initialApp (Some "key") true (faultyWorld 3 "permission-denied")))
              "key" "permission-denied" eq_refl eq_refl eq_refl eq_refl)
    as (H1 & H2 & _ & _ & H3 & _).
  repeat split; assumption.
Defined.

Lemma createNewModule_installs_module_witness :
  let s := exec (handler picksParser assignmentParser questionsParser
                   (OpSetTopic "Graph Theory Basics"))
             (initialApp (Some "key") true garbledWorld) in
  let s' := exec (createNewModule picksParser assignmentParser) s in
  appPhase (ui s') = assignment
  /\ topic (ui s') = EmptyString
  /\ is_Some (store s' !! "module-0").
Proof.
  destruct (createNewModule_installs_module picksParser assignmentParser
              (exec (handler picksParser assignmentParser questionsParser
                       (OpSetTopic "Graph Theory Basics"))
                 (initialApp (Some "key") true garbledWorld))
              "key" eq_refl eq_refl eq_refl eq_refl)
    as (_ & H1 & H2 & _ & H3).
  repeat split; assumption.
Defined.

Lemma generateTest_outcome_witness :
  let s := sampleApp (Some "key") (Some (sampleModule assignment_done false)) ∅ 0%Z in
  let s' := exec (generateTest questionsParser Quiz) s in
  questions (ui s') = [] /\ errorMessage (ui s') <> EmptyString
  /\ loading (ui s') = false /\ store s' = store s.
Proof.
  destruct (generateTest_outcome questionsParser Quiz
              (sampleApp (Some "key") (Some (sampleModule assignment_done false)) ∅ 0%Z)
              (sampleModule assignment_done false) "key" eq_refl eq_refl)
    as (_ & H1 & H2 & _ & _ & _ & _ & H3 & H4).
  repeat split; assumption.
Defined.

Lemma submitTest_after_failed_generation_witness :
  let s := sampleApp (Some "key") (Some (sampleModule assignment_done false)) ∅ 0%Z in
  let s2 := exec (submitTest FinalTest) (exec (generateTest questionsParser Quiz) s) in
  errorMessage (ui s2) = "Please generate a test first."
  /\ currentModule (ui s2) = Some (sampleModule assignment_done false).
Proof.
  destruct (submitTest_after_failed_generation questionsParser Quiz FinalTest
              (sampleApp (Some "key") (Some (sampleModule assignment_done false)) ∅ 0%Z)
              (sampleModule assignment_done false) "key" eq_refl eq_refl eq_refl)
    as (H1 & H2 & _).
  split; assumption.
Defined.

Lemma generateTest_http_error_witness :
  let s := storedApp forbiddenWorld (sampleModule assignment_done false) 0%Z in
  errorMessage (ui (exec (generateTest questionsParser Quiz) s))
  = "Error generating test: API error: 403 - API key not valid. Ensure your API key is valid and enabled for Gemini.".
Proof.
  exact (proj1 (generateTest_http_error questionsParser Quiz
                  (storedApp forbiddenWorld (sampleModule assignment_done false) 0%Z)
                  (sampleModule assignment_done false) "key" 403 "Forbidden"
                  {| candidates := None;
                     error := Some {| err_message := "API key not valid" |} |}
                  {| err_message := "API key not valid" |}
                  eq_refl eq_refl eq_refl eq_refl)).
Defined.

Lemma writes_stay_on_current_module_witness :
  let s := storedApp offlineWorld (sampleModule started false) 2%Z in
  let s' := exec (handler picksParser assignmentParser questionsParser OpSubmitAssignment) s in
  store s' !! "module-2" = store s !! "module-2".
Proof.
  refine (proj2 (writes_stay_on_current_module picksParser assignmentParser questionsParser
                   OpSubmitAssignment
                   (storedApp offlineWorld (sampleModule started false) 2%Z)
                   (sampleModule started false) _ _ eq_refl) "module-2" _);
    discriminate.
Defined.

Lemma successful_writes_keep_store_in_sync_witness :
  let s := storedApp offlineWorld (sampleModule assignment_done false) 0%Z in
  in_sync s
  /\ in_sync (exec (handler picksParser assignmentParser questionsParser
                      (OpSubmitTest FinalTest)) s).
Proof.
  assert (H : in_sync (storedApp offlineWorld (sampleModule assignment_done false) 0%Z)).
  { intros m [= <-]. eexists. split; vm_compute; reflexivity. }
  split; [exact H|].
  apply (successful_writes_keep_store_in_sync picksParser assignmentParser questionsParser
           (OpSubmitTest FinalTest)
           (storedApp offlineWorld (sampleModule assignment_done false) 0%Z));
    first [discriminate | reflexivity | exact H].
Defined.

Lemma failed_final_write_is_not_rolled_back_witness :
  let s := storedApp (faultyWorld 11 "unavailable") (sampleModule assignment_done false) 0%Z in
  let s' := exec (submitTest FinalTest) s in
  store s' = store s
  /\ errorMessage (ui s') = "Failed to save module progress: unavailable"
  /\ appPhase (ui s') = results
  /\ renderContent true (ui s') = ErrorPanel "Failed to save module progress: unavailable"
  /\ renderContent true (setErrorMessage EmptyString (ui s')) = ResultsScreen.
Proof.
  destruct (failed_final_write_is_not_rolled_back
              (storedApp (faultyWorld 11 "unavailable") (sampleModule assignment_done false) 0%Z)
              (sampleModule assignment_done false) "unavailable"
              eq_refl ltac:(discriminate) eq_refl eq_refl)
    as (H1 & _ & H2 & H3 & _ & H4 & H5 & _).
  repeat split; assumption.
Defined.

Lemma failed_reset_is_silent_witness :
  let s := storedApp (faultyWorld 11 "unavailable") (sampleModule needs_revisit false) 0%Z in
  let s' := exec resetModuleForRetry s in
  store s' = store s /\ errorMessage (ui s') = EmptyString.
Proof.
  destruct (failed_reset_is_silent
              (storedApp (faultyWorld 11 "unavailable") (sampleModule needs_revisit false) 0%Z)
              (sampleModule needs_revisit false) eq_refl
              (or_intror (ex_intro _ "unavailable" eq_refl)))
    as (H1 & H2 & _).
  split; assumption.
Defined.

Lemma selectModule_finished_witness :
  let s' := exec (selectModule picksParser assignmentParser (sampleModule completed true))
              (initialApp (Some "key") true offlineWorld) in
  appPhase (ui s') = results /\ certificateOffered (ui s') = true /\ effects s' = [].
Proof.
  destruct (selectModule_finished picksParser assignmentParser (sampleModule completed true)
              (initialApp (Some "key") true offlineWorld) (or_introl eq_refl))
    as (_ & H1 & _ & H2 & _ & H3 & _).
  repeat split; assumption.
Defined.

Lemma selectModule_with_content_witness :
  let s' := exec (selectModule picksParser assignmentParser
                    (sampleModule assignment_done false))
              (initialApp (Some "key") true offlineWorld) in
  appPhase (ui s') = quiz /\ effects s' = [].
Proof.
  destruct (selectModule_with_content picksParser assignmentParser
              (sampleModule assignment_done false)
              (initialApp (Some "key") true offlineWorld)
              eq_refl ltac:(discriminate) ltac:(discriminate))
    as (_ & H1 & _ & _ & _ & _ & _ & H2 & _).
  split; assumption.
Defined.

Lemma selectModule_outcome_witness :
  let module := spread (sampleModule started false) [FTeacherPicks []] in
  let r := selectModule picksParser assignmentParser module
             (storedApp garbledWorld module 1%Z) in
  r.1 = Ret tt
  /\ appPhase (ui r.2) = finalTest
  /\ currentAssignmentSectionIndex (ui r.2) = 0%Z.
Proof.
  destruct (selectModule_outcome picksParser assignmentParser
              (spread (sampleModule started false) [FTeacherPicks []])
              (storedApp garbledWorld (spread (sampleModule started false) [FTeacherPicks []]) 1%Z)
              ltac:(discriminate) ltac:(discriminate))
    as (Hret & Hphase & _).
  pose proof (Hret eq_refl (fun _ => eq_refl)) as H.
  destruct (Hphase H) as (H1 & H2 & _).
  repeat split; assumption.
Defined.

Lemma next_section_button_only_navigates_witness :
  let s := sampleApp None (Some (sampleModule started false)) ∅ 0%Z in
  renderAssignmentPhase (ui s) = SectionShown true false
  /\ currentAssignmentSectionIndex (ui (exec goToNextAssignmentSection s)) = 1%Z
  /\ effects (exec goToNextAssignmentSection s) = [].
Proof.
  destruct (next_section_button_only_navigates
              (sampleApp None (Some (sampleModule started false)) ∅ 0%Z) true eq_refl)
    as (H1 & _ & _ & _ & H2 & _).
  repeat split; assumption.
Defined.

Lemma previous_section_button_only_navigates_witness :
  let s := sampleApp None (Some (sampleModule started false)) ∅ 1%Z in
  renderAssignmentPhase (ui s) = SectionShown false false
  /\ currentAssignmentSectionIndex (ui (exec goToPreviousAssignmentSection s)) = 0%Z
  /\ effects (exec goToPreviousAssignmentSection s) = [].
Proof.
  destruct (previous_section_button_only_navigates
              (sampleApp None (Some (sampleModule started false)) ∅ 1%Z) false eq_refl)
    as (H1 & _ & _ & _ & H2 & _).
  repeat split; assumption.
Defined.
